(** * Discounted-cash-flow valuation: the two [DCF] classes of [src/models]

    The development embeds [src/models/gdcf.py] (the scalar variant, module
    [Gdcf]) and [src/models/dcf_m1.py] (the statement-driven variant, module
    [Dcf_m1]) and proves properties of their calculation methods.

    Numbers.  Python [int] and [float] values are both read as exact
    rationals ([Q]); decimal literals of the source ([0.7], [0.02]) are the
    rationals they denote.  Rounding of binary floating point, overflow,
    infinities and NaN are therefore outside the model.  Equality of
    rationals is [Qeq] ([==]); where the model computes literally the
    expression of a statement, Leibniz equality is used.

    Effects.  [print] and [input] act on a [world] (what was written, what
    is still to be read); exceptions are the [Raise] results of [res]. *)

From Stdlib Require Import QArith Qpower Qfield Lia Lqa.
From stdpp Require Import gmap strings list.

(** ** Python values, exceptions, results *)

#[warnings="-register-all"]
Inductive pyval : Type :=
  | PNone
  | PBool (b : bool)
  | PInt (z : Z)
  | PFloat (q : Q)
  | PStr (s : string)
  | PList (l : list pyval).

(** [isinstance(v, (int, float))]: the numeric value of an [int], a [float]
    or a [bool] ([bool] is a subclass of [int]); nothing for other values. *)
Definition as_number (v : pyval) : option Q :=
  match v with
  | PBool b => Some (if b then 1%Q else 0%Q)
  | PInt z => Some (inject_Z z)
  | PFloat q => Some q
  | _ => None
  end.

Definition isinstance_number (v : pyval) : bool :=
  match as_number v with Some _ => true | None => false end.

(** Truth value of an object, as tested by [if v:] and [not v]. *)
Definition truthy (v : pyval) : bool :=
  match v with
  | PNone => false
  | PBool b => b
  | PInt z => negb (z =? 0)%Z
  | PFloat q => negb (Qeq_bool q 0)
  | PStr s => negb (String.eqb s "")
  | PList l => match l with [] => false | _ => true end
  end.

(** Exceptions.  [ValueError] carries the message of the [raise] statement
    of the source; for a failed conversion by a builtin the message is the
    builtin's name. *)
Inductive exn : Type :=
  | ValueError (msg : string)
  | TypeError
  | KeyError (key : string)
  | IndexError
  | ZeroDivisionError
  | EOFError.

Inductive res (A : Type) : Type :=
  | Ok (a : A)
  | Raise (e : exn).
Arguments Ok {A} a.
Arguments Raise {A} e.

Definition res_bind {A B} (r : res A) (k : A -> res B) : res B :=
  match r with
  | Ok a => k a
  | Raise e => Raise e
  end.

(** A call is rejected when it raises a [ValueError]. *)
Definition rejected {A} (r : res A) : Prop :=
  exists msg, r = Raise (ValueError msg).

(** An argument that is no number, and one that is a number with a given
    property. *)
Definition non_numeric (v : pyval) : Prop := as_number v = None.

Definition numeric_with (P : Q -> Prop) (v : pyval) : Prop :=
  exists x, as_number v = Some x /\ P x.

Definition Qlt_bool (x y : Q) : bool := negb (Qle_bool y x).

(** True division [a / b]. *)
Definition py_div (a b : Q) : res Q :=
  if Qeq_bool b 0 then Raise ZeroDivisionError else Ok (a / b)%Q.

(** [base ** n] for an [int] exponent that is not negative where it is used. *)
Definition py_pow (base : Q) (n : Z) : Q := (base ^ n)%Q.

(** [xs[-1]]. *)
Definition py_last {A} (xs : list A) : res A :=
  match last xs with
  | Some x => Ok x
  | None => Raise IndexError
  end.

(** [xs[i]] for a literal index [i >= 0]. *)
Definition py_index {A} (xs : list A) (i : nat) : res A :=
  match xs !! i with
  | Some x => Ok x
  | None => Raise IndexError
  end.

(** [d[key]] on a [dict] with [str] keys. *)
Definition py_getitem (d : gmap string pyval) (key : string) : res pyval :=
  match d !! key with
  | Some v => Ok v
  | None => Raise (KeyError key)
  end.

(** ** Console effects *)

(** A printed or prompted line is kept as its parts: literal text, values
    interpolated by [format] or an f-string, and numbers rendered by
    ['%.2E']; the rendering of a value as text is not interpreted. *)
Inductive piece : Type :=
  | Lit (s : string)
  | Val (v : pyval)
  | Num (q : Q)
  | Sci2E (q : Q).

Inductive event : Type :=
  | Print (line : list piece)
  | Input (prompt : list piece).

Record world : Type := World {
  stdout : list event;
  stdin : list string
}.

Definition M (A : Type) : Type := world -> world * res A.

Definition ret {A} (a : A) : M A := fun w => (w, Ok a).

Definition raise {A} (e : exn) : M A := fun w => (w, Raise e).

Definition bind {A B} (m : M A) (k : A -> M B) : M B :=
  fun w =>
    match m w with
    | (w', Ok a) => k a w'
    | (w', Raise e) => (w', Raise e)
    end.

Definition lift {A} (r : res A) : M A := fun w => (w, r).

Definition emit (e : event) (w : world) : world :=
  World (stdout w ++ [e]) (stdin w).

Definition print (line : list piece) : M unit :=
  fun w => (emit (Print line) w, Ok tt).

(** [input(prompt)]: writes the prompt, reads one line; [EOFError] when the
    input is exhausted. *)
Definition input (prompt : list piece) : M string :=
  fun w =>
    match stdin w with
    | [] => (emit (Input prompt) w, Raise EOFError)
    | line :: rest => (World (stdout w ++ [Input prompt]) rest, Ok line)
    end.

Declare Scope py_scope.
Delimit Scope py_scope with py.
Notation "'let*' x := m 'in' k" := (bind m (fun x => k))
  (at level 10, x name, m at level 100, k at level 200) : py_scope.
Notation "'let?' x := r 'in' k" := (res_bind r (fun x => k))
  (at level 10, x name, r at level 100, k at level 200) : py_scope.
Notation "m ';;;' k" := (bind m (fun _ => k))
  (at level 100, k at level 200, right associativity) : py_scope.

(** Number of [input] calls recorded in an output trace. *)
Definition is_input (e : event) : bool :=
  match e with Input _ => true | Print _ => false end.

Definition input_calls (out : list event) : nat :=
  length (filter (fun e => is_input e = true) out).

(** A computation that reads nothing: whatever it returns or raises, it
    leaves the pending input alone and adds no [input] call to the trace. *)
Definition no_input {A} (m : M A) : Prop :=
  forall w,
    stdin (fst (m w)) = stdin w /\
    input_calls (stdout (fst (m w))) = input_calls (stdout w).

(** ** [src/models/gdcf.py]: the scalar variant *)

Module Gdcf.
Local Open Scope Q_scope.
Local Open Scope py_scope.

(** The instance fields; every numeric field holds a number. *)
Record DCF : Type := mkDCF {
  _current_fcf : Q;
  _growth_rates : list Q;
  _terminal_growth_rate : Q;
  _wacc : Q;
  _cash_and_equivalents : Q;
  _total_debt : Q;
  _shares_outstanding : Q
}.

Definition __init__ : DCF :=
  mkDCF 0.0 [] 0.02 0.10 0.0 0.0 1.0.

(** *** Setters (lines 15-55) *)

Definition set_current_fcf (fcf : pyval) (self : DCF) : res DCF :=
  match as_number fcf with
  | Some x =>
      if Qlt_bool x 0
      then Raise (ValueError "Current FCF must be a non-negative number.")
      else Ok (mkDCF x (_growth_rates self) (_terminal_growth_rate self)
                 (_wacc self) (_cash_and_equivalents self) (_total_debt self)
                 (_shares_outstanding self))
  | None => Raise (ValueError "Current FCF must be a non-negative number.")
  end.

Definition set_growth_rates (rates : pyval) (self : DCF) : res DCF :=
  match rates with
  | PList l =>
      match mapM as_number l with
      | Some rs =>
          Ok (mkDCF (_current_fcf self) rs (_terminal_growth_rate self)
                (_wacc self) (_cash_and_equivalents self) (_total_debt self)
                (_shares_outstanding self))
      | None => Raise (ValueError "Growth rates must be a list of numbers.")
      end
  | _ => Raise (ValueError "Growth rates must be a list of numbers.")
  end.

Definition set_terminal_growth_rate (rate : pyval) (self : DCF) : res DCF :=
  match as_number rate with
  | Some x =>
      Ok (mkDCF (_current_fcf self) (_growth_rates self) x
            (_wacc self) (_cash_and_equivalents self) (_total_debt self)
            (_shares_outstanding self))
  | None => Raise (ValueError "Terminal growth rate must be a number.")
  end.

Definition set_wacc (wacc : pyval) (self : DCF) : res DCF :=
  match as_number wacc with
  | Some x =>
      if Qlt_bool 0 x && Qlt_bool x 1
      then Ok (mkDCF (_current_fcf self) (_growth_rates self)
                 (_terminal_growth_rate self) x (_cash_and_equivalents self)
                 (_total_debt self) (_shares_outstanding self))
      else Raise (ValueError
                    "WACC must be a number between 0 and 1 (exclusive).")
  | None => Raise (ValueError
                     "WACC must be a number between 0 and 1 (exclusive).")
  end.

Definition set_cash_and_equivalents (cash : pyval) (self : DCF) : res DCF :=
  match as_number cash with
  | Some x =>
      if Qlt_bool x 0
      then Raise (ValueError
                    "Cash and equivalents must be a non-negative number.")
      else Ok (mkDCF (_current_fcf self) (_growth_rates self)
                 (_terminal_growth_rate self) (_wacc self) x
                 (_total_debt self) (_shares_outstanding self))
  | None => Raise (ValueError
                     "Cash and equivalents must be a non-negative number.")
  end.

Definition set_total_debt (debt : pyval) (self : DCF) : res DCF :=
  match as_number debt with
  | Some x =>
      if Qlt_bool x 0
      then Raise (ValueError "Total debt must be a non-negative number.")
      else Ok (mkDCF (_current_fcf self) (_growth_rates self)
                 (_terminal_growth_rate self) (_wacc self)
                 (_cash_and_equivalents self) x (_shares_outstanding self))
  | None => Raise (ValueError "Total debt must be a non-negative number.")
  end.

Definition set_shares_outstanding (shares : pyval) (self : DCF) : res DCF :=
  match as_number shares with
  | Some x =>
      if Qle_bool x 0
      then Raise (ValueError "Shares outstanding must be a positive number.")
      else Ok (mkDCF (_current_fcf self) (_growth_rates self)
                 (_terminal_growth_rate self) (_wacc self)
                 (_cash_and_equivalents self) (_total_debt self) x)
  | None => Raise (ValueError "Shares outstanding must be a positive number.")
  end.

(** *** [calc] (lines 80-137) *)

Definition msg_wacc : string :=
  "WACC must be greater than the terminal growth rate for a stable terminal value calculation.".

Definition msg_empty : string :=
  "Growth rates list cannot be empty. Please set growth rates for projection period.".

Definition msg_warning : string :=
  "Warning: Current FCF is zero or negative. DCF might not be appropriate or projections need careful review.".

(** Lines 92-97: the loop state is [(projected_fcfs, last_fcf)]. *)
Definition project_step (st : list Q * Q) (growth_rate : Q) : list Q * Q :=
  let '(projected_fcfs, last_fcf) := st in
  let next_fcf := last_fcf * (1 + growth_rate) in
  (projected_fcfs ++ [next_fcf], next_fcf).

Definition project_fcfs (current_fcf : Q) (growth_rates : list Q) : list Q :=
  fst (fold_left project_step growth_rates ([], current_fcf)).

(** Lines 100-103: [enumerate] pairs each flow with its index. *)
Definition enumerate {A} (xs : list A) : list (nat * A) :=
  combine (seq 0 (length xs)) xs.

Definition discount_step (wacc : Q) (acc : res Q) (ix : nat * Q) : res Q :=
  let? present_value_of_fcfs := acc in
  let discount_factor := py_pow (1 + wacc) (Z.of_nat (fst ix + 1)) in
  let? pv := py_div (snd ix) discount_factor in
  Ok (present_value_of_fcfs + pv).

Definition discount_fcfs (wacc : Q) (projected_fcfs : list Q) : res Q :=
  fold_left (discount_step wacc) (enumerate projected_fcfs) (Ok 0).

(** The dictionary returned on line 129. *)
Record valuation : Type := mkValuation {
  projected_fcfs : list Q;
  present_value_of_fcfs : Q;
  terminal_value : Q;
  present_value_of_terminal_value : Q;
  enterprise_value : Q;
  equity_value : Q;
  intrinsic_value_per_share : Q
}.

(** [calc] returns the integer [0] on line 126 and the dictionary on
    line 129. *)
Inductive calc_return : Type :=
  | Return0
  | ReturnDict (v : valuation).

Definition calc (self : DCF) : M calc_return :=
  if Qle_bool (_wacc self) (_terminal_growth_rate self)
  then raise (ValueError msg_wacc)
  else
  match _growth_rates self with
  | [] => raise (ValueError msg_empty)
  | _ :: _ =>
    (if Qle_bool (_current_fcf self) 0
     then print [Lit msg_warning] else ret tt) ;;;
    let projected_fcfs := project_fcfs (_current_fcf self) (_growth_rates self) in
    let* present_value_of_fcfs := lift (discount_fcfs (_wacc self) projected_fcfs) in
    let* last_projected_fcf := lift (py_last projected_fcfs) in
    let* terminal_value :=
      lift (py_div (last_projected_fcf * (1 + _terminal_growth_rate self))
                   (_wacc self - _terminal_growth_rate self)) in
    let discount_factor_tv :=
      py_pow (1 + _wacc self) (Z.of_nat (length (_growth_rates self))) in
    let* present_value_of_terminal_value :=
      lift (py_div terminal_value discount_factor_tv) in
    let enterprise_value :=
      present_value_of_fcfs + present_value_of_terminal_value in
    let equity_value :=
      enterprise_value + _cash_and_equivalents self - _total_debt self in
    if Qle_bool (_shares_outstanding self) 0
    then ret Return0
    else
      let* intrinsic_value_per_share :=
        lift (py_div equity_value (_shares_outstanding self)) in
      ret (ReturnDict
             (mkValuation projected_fcfs present_value_of_fcfs terminal_value
                present_value_of_terminal_value enterprise_value equity_value
                intrinsic_value_per_share))
  end.

(** The example of lines 142-153, as the chain of setter calls. *)
Definition scenario_A : res DCF :=
  let? d := set_current_fcf (PInt 100) __init__ in
  let? d := set_growth_rates
              (PList [PFloat 0.15; PFloat 0.10; PFloat 0.08; PFloat 0.05;
                      PFloat 0.03]) d in
  let? d := set_terminal_growth_rate (PFloat 0.02) d in
  let? d := set_wacc (PFloat 0.09) d in
  let? d := set_cash_and_equivalents (PInt 50) d in
  let? d := set_total_debt (PInt 20) d in
  set_shares_outstanding (PInt 100) d.

(** *** The formulas of the specification (sections 4.3 to 4.5)

    These definitions follow the words of the specification, not the code;
    the theorems below compare [calc] with them. *)

(** "next_fcf <- previous_fcf x (1 + growth_rate[index]); previous_fcf starts
    at current_fcf." *)
Fixpoint spec_projected (previous_fcf : Q) (growth_rates : list Q) : list Q :=
  match growth_rates with
  | [] => []
  | growth_rate :: rest =>
      let next_fcf := previous_fcf * (1 + growth_rate) in
      next_fcf :: spec_projected next_fcf rest
  end.

(** "present value = next_fcf / (1 + wacc)^year", with year = index + 1. *)
Definition spec_present_value (wacc : Q) (index : nat) (fcf : Q) : Q :=
  fcf / (1 + wacc) ^ Z.of_nat (index + 1).

Definition spec_present_values (wacc : Q) (fcfs : list Q) : list Q :=
  imap (spec_present_value wacc) fcfs.

Definition spec_sum (xs : list Q) : Q := fold_left Qplus xs 0.

(** "terminal_value = final_year_flow x (1 + terminal_growth_rate) /
    (discount_rate - terminal_growth_rate)." *)
Definition spec_terminal_value (final_year_flow g r : Q) : Q :=
  final_year_flow * (1 + g) / (r - g).

(** "scalar path: terminal_value / (1 + wacc)^forecast_period." *)
Definition spec_pv_terminal (tv wacc : Q) (forecast_period : nat) : Q :=
  tv / (1 + wacc) ^ Z.of_nat forecast_period.

Definition spec_valuation (self : DCF) : valuation :=
  let fcfs := spec_projected (_current_fcf self) (_growth_rates self) in
  let pv := spec_sum (spec_present_values (_wacc self) fcfs) in
  let tv :=
    spec_terminal_value (default 0 (last fcfs)) (_terminal_growth_rate self)
      (_wacc self) in
  let pv_tv := spec_pv_terminal tv (_wacc self) (length (_growth_rates self)) in
  let ev := pv + pv_tv in
  let equity := ev + _cash_and_equivalents self - _total_debt self in
  mkValuation fcfs pv tv pv_tv ev equity (equity / _shares_outstanding self).

(** The state of the world after the check of line 88. *)
Definition warned (self : DCF) (w : world) : world :=
  if Qle_bool (_current_fcf self) 0 then emit (Print [Lit msg_warning]) w
  else w.

(** What the setters establish, starting from [__init__]. *)
Definition setter_invariant (self : DCF) : Prop :=
  0 <= _current_fcf self /\ 0 < _wacc self /\ _wacc self < 1 /\
  0 <= _cash_and_equivalents self /\ 0 <= _total_debt self /\
  0 < _shares_outstanding self.

(** The object that [scenario_A] builds; the same with a share count of [0]
    written into the field; the same with a current FCF of [0]. *)
Definition scenario_A_state : DCF :=
  mkDCF 100 [0.15; 0.10; 0.08; 0.05; 0.03] 0.02 0.09 50 20 100.

Definition scenario_C_state : DCF :=
  mkDCF 100 [0.15; 0.10; 0.08; 0.05; 0.03] 0.02 0.09 50 20 0.

(** The same with a WACC of [0.02], equal to the terminal growth rate. *)
Definition scenario_B_state : DCF :=
  mkDCF 100 [0.15; 0.10; 0.08; 0.05; 0.03] 0.02 0.02 50 20 100.

Definition zero_fcf_state : DCF :=
  mkDCF 0 [0.15; 0.10; 0.08; 0.05; 0.03] 0.02 0.09 50 20 100.

Definition scenario_A_fcfs : list Q :=
  [115.0; 126.5; 136.62; 143.451; 147.75453].

(** *** Getters (lines 58-77) *)

Definition get_current_fcf (self : DCF) : Q := _current_fcf self.
Definition get_growth_rates (self : DCF) : list Q := _growth_rates self.
Definition get_terminal_growth_rate (self : DCF) : Q :=
  _terminal_growth_rate self.
Definition get_wacc (self : DCF) : Q := _wacc self.
Definition get_cash_and_equivalents (self : DCF) : Q :=
  _cash_and_equivalents self.
Definition get_total_debt (self : DCF) : Q := _total_debt self.
Definition get_shares_outstanding (self : DCF) : Q := _shares_outstanding self.

(** *** Method chaining (lines 145-153)

    Every setter returns [self], so calls are chained; a chain is the list
    of its calls, each a setter with its argument, and it stops at the
    first call that raises. *)
Inductive setter : Type :=
  | SetCurrentFcf
  | SetGrowthRates
  | SetTerminalGrowthRate
  | SetWacc
  | SetCashAndEquivalents
  | SetTotalDebt
  | SetSharesOutstanding.

Definition call_setter (s : setter) (v : pyval) (self : DCF) : res DCF :=
  match s with
  | SetCurrentFcf => set_current_fcf v self
  | SetGrowthRates => set_growth_rates v self
  | SetTerminalGrowthRate => set_terminal_growth_rate v self
  | SetWacc => set_wacc v self
  | SetCashAndEquivalents => set_cash_and_equivalents v self
  | SetTotalDebt => set_total_debt v self
  | SetSharesOutstanding => set_shares_outstanding v self
  end.

Fixpoint chain (calls : list (setter * pyval)) (self : DCF) : res DCF :=
  match calls with
  | [] => Ok self
  | (s, v) :: rest => let? d := call_setter s v self in chain rest d
  end.

(** What the getter that belongs to a setter returns, as the numbers it
    holds (one number, or the list of growth rates). *)
Definition getter (s : setter) (self : DCF) : list Q :=
  match s with
  | SetCurrentFcf => [get_current_fcf self]
  | SetGrowthRates => get_growth_rates self
  | SetTerminalGrowthRate => [get_terminal_growth_rate self]
  | SetWacc => [get_wacc self]
  | SetCashAndEquivalents => [get_cash_and_equivalents self]
  | SetTotalDebt => [get_total_debt self]
  | SetSharesOutstanding => [get_shares_outstanding self]
  end.

(** The numbers an accepted argument of a setter stands for. *)
Definition numbers_of (s : setter) (v : pyval) : option (list Q) :=
  match s, v with
  | SetGrowthRates, PList l => mapM as_number l
  | SetGrowthRates, _ => None
  | _, _ => match as_number v with Some x => Some [x] | None => None end
  end.

End Gdcf.

(** ** [src/models/dcf_m1.py]: the statement-driven variant *)

Module Dcf_m1.
Local Open Scope Q_scope.
Local Open Scope py_scope.

(** A statement is a list of yearly records, most recent first; a record
    is a [dict] from line-item names to values. *)
Abbreviation record := (gmap string pyval).
Abbreviation statement := (list (gmap string pyval)).

(** [range(a, b)]. *)
Definition range (a b : Z) : list Z :=
  map (fun i => (a + Z.of_nat i)%Z) (seq 0 (Z.to_nat (b - a))).

(** [sum(xs)]: starts from [0] and adds from the left. *)
Definition py_sum (xs : list Q) : Q := fold_left Qplus xs 0.

(** An operand of [-] or [+] next to a [float]. *)
Definition py_operand (v : pyval) : res Q :=
  match as_number v with
  | Some x => Ok x
  | None => Raise TypeError
  end.

Section Builtins.

(** The builtins [float] and [int] on a [str]: what they parse is left
    open, every result below holds for any such pair of functions. *)
Variable float_of_str : string -> option Q.
Variable int_of_str : string -> option Z.

(** [float(v)]. *)
Definition py_float (v : pyval) : res Q :=
  match v with
  | PBool b => Ok (if b then 1 else 0)
  | PInt z => Ok (inject_Z z)
  | PFloat q => Ok q
  | PStr s =>
      match float_of_str s with
      | Some q => Ok q
      | None => Raise (ValueError "float")
      end
  | PNone | PList _ => Raise TypeError
  end.

(** [int(date[0:4])]: only a [str] can be both sliced and converted. *)
Definition year_of (date : pyval) : res Z :=
  match date with
  | PStr s =>
      match int_of_str (String.substring 0 4 s) with
      | Some z => Ok z
      | None => Raise (ValueError "int")
      end
  | _ => Raise TypeError
  end.

(** Line 76. *)
Definition _ulFCF (ebit tax_rate non_cash_charges cwc cap_ex : Q) : Q :=
  ebit * (1 - tax_rate) + non_cash_charges + cwc + cap_ex.

(** Lines 83-87. *)
Definition _equity_value_calculation
    (enterprise_value : Q) (enterprise_value_statement : record)
    : res (Q * Q) :=
  let? debt := py_getitem enterprise_value_statement "+ Total Debt" in
  let? debt := py_operand debt in
  let equity_val := enterprise_value - debt in
  let? cash :=
    py_getitem enterprise_value_statement "- Cash & Cash Equivalents" in
  let? cash := py_operand cash in
  let equity_val := equity_val + cash in
  let? shares := py_getitem enterprise_value_statement "Number of Shares" in
  let? shares := py_float shares in
  let? share_price := py_div equity_val shares in
  Ok (equity_val, share_price).

(** Lines 92-95: the base-year EBIT, read from the record or asked for. *)
Definition prompt_ebit (date : pyval) : list piece :=
  [Lit "EBIT missing. Enter EBIT on "; Val date; Lit " or skip: "].

Definition read_ebit (income_statement : statement) : M Q :=
  let* inc0 := lift (py_index income_statement 0) in
  let* item := lift (py_getitem inc0 "EBIT") in
  if truthy item
  then lift (py_float item)
  else
    let* date := lift (py_getitem inc0 "date") in
    let* line := input (prompt_ebit date) in
    lift (py_float (PStr line)).

(** The values of the locals after line 101. *)
Record base_year : Type := mkBase {
  b_ebit : Q;
  b_tax_rate : Q;
  b_non_cash_charges : Q;
  b_cwc : Q;
  b_cap_ex : Q
}.

(** Lines 92-101. *)
Definition base_year_inputs
    (income_statement cashflow_statement balance_statement : statement)
    : M base_year :=
  let* ebit := read_ebit income_statement in
  lift (
    let? inc0 := py_index income_statement 0 in
    let? tax := py_getitem inc0 "Income Tax Expense" in
    let? tax := py_float tax in
    let? ebt := py_getitem inc0 "Earnings before Tax" in
    let? ebt := py_float ebt in
    let? tax_rate := py_div tax ebt in
    let? cf0 := py_index cashflow_statement 0 in
    let? da := py_getitem cf0 "Depreciation & Amortization" in
    let? non_cash_charges := py_float da in
    let? bal0 := py_index balance_statement 0 in
    let? ta0 := py_getitem bal0 "Total assets" in
    let? ta0 := py_float ta0 in
    let? nca0 := py_getitem bal0 "Total non-current assets" in
    let? nca0 := py_float nca0 in
    let? bal1 := py_index balance_statement 1 in
    let? ta1 := py_getitem bal1 "Total assets" in
    let? ta1 := py_float ta1 in
    let? nca1 := py_getitem bal1 "Total non-current assets" in
    let? nca1 := py_float nca1 in
    let cwc := (ta0 - nca0) - (ta1 - nca1) in
    let? capex := py_getitem cf0 "Capital Expenditure" in
    let? cap_ex := py_float capex in
    Ok (mkBase ebit tax_rate non_cash_charges cwc cap_ex)).

(** The locals that the loop of lines 108-124 updates. *)
Record running : Type := mkRunning {
  r_ebit : Q;
  r_non_cash_charges : Q;
  r_cwc : Q;
  r_cap_ex : Q;
  r_flows : list Q
}.

Definition header : list piece :=
  [Lit "         DFCF   |    EBIT   |    D&A    |    CWC     |   CAP_EX   | "].

Definition row (year : Z) (PV_flow ebit non_cash_charges cwc cap_ex : Q)
    : list piece :=
  [Val (PInt year); Lit "  "; Sci2E PV_flow; Lit " | "; Sci2E ebit; Lit " | ";
   Sci2E non_cash_charges; Lit " | "; Sci2E cwc; Lit " | "; Sci2E cap_ex;
   Lit " | "].

(** One iteration of the loop (lines 110-124) for year index [yr]. *)
Definition forecast_year
    (income_statement : statement)
    (tax_rate discount earnings_growth_rate cap_ex_growth_rate : Q)
    (st : running) (yr : Z) : M running :=
  let ebit := r_ebit st * (1 + (inject_Z yr * earnings_growth_rate)) in
  let non_cash_charges :=
    r_non_cash_charges st * (1 + (inject_Z yr * earnings_growth_rate)) in
  let cwc := r_cwc st * 0.7 in
  let cap_ex := r_cap_ex st * (1 + (inject_Z yr * cap_ex_growth_rate)) in
  let flow := _ulFCF ebit tax_rate non_cash_charges cwc cap_ex in
  let* PV_flow := lift (py_div flow (py_pow (1 + discount) yr)) in
  let flows := r_flows st ++ [PV_flow] in
  let* inc0 := lift (py_index income_statement 0) in
  let* date := lift (py_getitem inc0 "date") in
  let* year := lift (year_of date) in
  print (row (year + yr) PV_flow ebit non_cash_charges cwc cap_ex) ;;;
  ret (mkRunning ebit non_cash_charges cwc cap_ex flows).

Definition forecast_loop
    (income_statement : statement)
    (tax_rate discount earnings_growth_rate cap_ex_growth_rate : Q)
    (years : list Z) (st : running) : M running :=
  fold_left
    (fun acc yr =>
       let* st := acc in
       forecast_year income_statement tax_rate discount earnings_growth_rate
         cap_ex_growth_rate st yr)
    years (ret st).

(** Lines 128-129: the Gordon Growth terminal value [TV]. *)
Definition terminal_value
    (flows : list Q) (discount perpetual_growth_rate : Q) : res Q :=
  let? final := py_last flows in
  let final_cashflow := final * (1 + perpetual_growth_rate) in
  py_div final_cashflow (discount - perpetual_growth_rate).

(** The locals as the loop starts: the base-year values and [flows = []]
    (line 104). *)
Definition initial_state (b : base_year) : running :=
  mkRunning (b_ebit b) (b_non_cash_charges b) (b_cwc b) (b_cap_ex b) [].

(** Lines 92-124: the base-year inputs, the heading and the loop. *)
Definition forecast
    (income_statement cashflow_statement balance_statement : statement)
    (period : Z)
    (discount earnings_growth_rate cap_ex_growth_rate : Q)
    : M (base_year * running) :=
  let* b :=
    base_year_inputs income_statement cashflow_statement balance_statement in
  let* inc0 := lift (py_index income_statement 0) in
  let* date := lift (py_getitem inc0 "date") in
  print ([Lit "Forecasting flows for "; Val (PInt period);
          Lit " years out, starting at "; Val date; Lit "."] ++ header) ;;;
  let* st :=
    forecast_loop income_statement (b_tax_rate b) discount
      earnings_growth_rate cap_ex_growth_rate (range 1 (period + 1))
      (initial_state b) in
  ret (b, st).

(** Lines 89-132. *)
Definition _enterprise_value_calculation
    (income_statement cashflow_statement balance_statement : statement)
    (period : Z)
    (discount_rate earnings_growth_rate cap_ex_growth_rate
       perpetual_growth_rate : Q) : M Q :=
  let discount := discount_rate in
  let* bs :=
    forecast income_statement cashflow_statement balance_statement period
      discount earnings_growth_rate cap_ex_growth_rate in
  let flows := r_flows (snd bs) in
  let NPV_FCF := py_sum flows in
  let* TV := lift (terminal_value flows discount perpetual_growth_rate) in
  let* NPV_TV := lift (py_div TV (py_pow (1 + discount) (1 + period))) in
  ret (NPV_TV + NPV_FCF).

(** The instance fields (lines 9-22); the four computed fields are unset
    ([None]) until [calculate_dcf] has run. *)
Record DCF : Type := mkDCF {
  _ticker : pyval;
  _ev_statement : record;
  _income_statement : statement;
  _balance_statement : statement;
  _cashflow_statement : statement;
  _discount_rate : Q;
  _forecast_period : Z;
  _earnings_growth_rate : Q;
  _cap_ex_growth_rate : Q;
  _perpetual_growth_rate : Q;
  _enterprise_value : option Q;
  _equity_value : option Q;
  _share_price : option Q;
  _date : option pyval
}.

(** The dictionary returned on line 69. *)
Record dcf_result : Type := mkResult {
  res_date : pyval;
  res_enterprise_value : Q;
  res_equity_value : Q;
  res_share_price : Q
}.

(** Lines 60-74; the object after the call and the returned dictionary. *)
Definition calculate_dcf (self : DCF) : M (DCF * dcf_result) :=
  let* ev :=
    _enterprise_value_calculation (_income_statement self)
      (_cashflow_statement self) (_balance_statement self)
      (_forecast_period self) (_discount_rate self)
      (_earnings_growth_rate self) (_cap_ex_growth_rate self)
      (_perpetual_growth_rate self) in
  let* es := lift (_equity_value_calculation ev (_ev_statement self)) in
  let* inc0 := lift (py_index (_income_statement self) 0) in
  let* date := lift (py_getitem inc0 "date") in
  print [Lit "Enterprise Value for "; Val (_ticker self); Lit ": $";
         Sci2E ev; Lit "."; Lit "Equity Value for "; Val (_ticker self);
         Lit ": $"; Sci2E (fst es); Lit "."; Lit "Per share value for ";
         Val (_ticker self); Lit ": $"; Sci2E (snd es); Lit "."] ;;;
  ret (mkDCF (_ticker self) (_ev_statement self) (_income_statement self)
         (_balance_statement self) (_cashflow_statement self)
         (_discount_rate self) (_forecast_period self)
         (_earnings_growth_rate self) (_cap_ex_growth_rate self)
         (_perpetual_growth_rate self)
         (Some ev) (Some (fst es)) (Some (snd es)) (Some date),
       mkResult date ev (fst es) (snd es)).

End Builtins.

(** *** The projector of the specification (section 4.3)

    These two definitions follow the words of the specification: the
    update of the running quantities for year index [yr], the year's
    unlevered free cash flow and its present value; and the quantities
    after [n] years. *)
Definition spec_year
    (tax_rate discount_rate earnings_growth_rate cap_ex_growth_rate : Q)
    (yr : Z) (prev : running) : running :=
  let ebit := r_ebit prev * (1 + inject_Z yr * earnings_growth_rate) in
  let non_cash_charges :=
    r_non_cash_charges prev * (1 + inject_Z yr * earnings_growth_rate) in
  let cwc := r_cwc prev * 0.7 in
  let cap_ex := r_cap_ex prev * (1 + inject_Z yr * cap_ex_growth_rate) in
  let flow := ebit * (1 - tax_rate) + non_cash_charges + cwc + cap_ex in
  mkRunning ebit non_cash_charges cwc cap_ex
    (r_flows prev ++ [flow / (1 + discount_rate) ^ yr]).

Fixpoint spec_years
    (tax_rate discount_rate earnings_growth_rate cap_ex_growth_rate : Q)
    (n : nat) (st0 : running) : running :=
  match n with
  | O => st0
  | S k =>
      spec_year tax_rate discount_rate earnings_growth_rate cap_ex_growth_rate
        (Z.of_nat (S k))
        (spec_years tax_rate discount_rate earnings_growth_rate
           cap_ex_growth_rate k st0)
  end.

(** The Gordon Growth formula of section 4.4. *)
Definition spec_terminal_value (final_year_flow g r : Q) : Q :=
  final_year_flow * (1 + g) / (r - g).

(** *** Concrete data for the examples *)

(** Parsers for the strings of the examples: a non-empty string of decimal
    digits, on which [int] and [float] return the number it writes. *)
Fixpoint digits_value (s : string) (acc : Z) : option Z :=
  match s with
  | EmptyString => Some acc
  | String c rest =>
      let n := Z.of_nat (Ascii.nat_of_ascii c) in
      if ((48 <=? n) && (n <=? 57))%Z
      then digits_value rest (acc * 10 + (n - 48))%Z
      else None
  end.

Definition int_of_digits (s : string) : option Z :=
  match s with
  | EmptyString => None
  | _ => digits_value s 0%Z
  end.

Definition float_of_digits (s : string) : option Q :=
  match int_of_digits s with
  | Some z => Some (inject_Z z)
  | None => None
  end.

Definition income_2020 : record :=
  {[ "date"%string := PStr "2020-12-31";
     "EBIT"%string := PFloat 100;
     "Income Tax Expense"%string := PFloat 20;
     "Earnings before Tax"%string := PFloat 100 ]}.

Definition cashflow_2020 : record :=
  {[ "Depreciation & Amortization"%string := PFloat 10;
     "Capital Expenditure"%string := PFloat (-5) ]}.

Definition balance_2020 : record :=
  {[ "Total assets"%string := PFloat 200;
     "Total non-current assets"%string := PFloat 120 ]}.

Definition balance_2019 : record :=
  {[ "Total assets"%string := PFloat 180;
     "Total non-current assets"%string := PFloat 110 ]}.

Definition ev_2020 : record :=
  {[ "+ Total Debt"%string := PFloat 30;
     "- Cash & Cash Equivalents"%string := PFloat (-10);
     "Number of Shares"%string := PFloat 10 ]}.

(** The base-year income record without an [EBIT] entry, and with an entry
    that is [None], [0] or the empty string. *)
Definition income_no_ebit : record := delete "EBIT"%string income_2020.

Definition income_ebit (v : pyval) : record :=
  <["EBIT"%string := v]> income_2020.

(** The base-year inputs that lines 92-101 read from these records. *)
Definition base_2020 : base_year :=
  mkBase 100 (20 / 100) 10 ((200 - 120) - (180 - 110)) (-5).

(** An object on the records above: a one-year forecast whose discount
    rate is given, with a perpetual growth rate of 0.02. *)
Definition dcf_2020 (discount_rate : Q) : DCF :=
  mkDCF (PStr "ACME") ev_2020 [income_2020] [balance_2020; balance_2019]
    [cashflow_2020] discount_rate 1 0.05 0.045 0.02 None None None None.

(** The line printed before the loop (line 106). *)
Definition heading (period : Z) (date : pyval) : list piece :=
  [Lit "Forecasting flows for "; Val (PInt period);
   Lit " years out, starting at "; Val date; Lit "."] ++ header.

(** The base-year income record with a date that does not start with a
    year, and the enterprise-value record with its debt held as text, and
    with no shares. *)
Definition income_undated : gmap string pyval :=
  <["date"%string := PStr "n/a"]> income_2020.

Definition ev_text_debt : gmap string pyval :=
  <["+ Total Debt"%string := PStr "30"]> ev_2020.

Definition ev_no_shares : gmap string pyval :=
  <["Number of Shares"%string := PFloat 0]> ev_2020.

End Dcf_m1.

(** * Properties *)

(** ** Results, effects and rational arithmetic *)

Section Basics.
Local Open Scope Q_scope.

Lemma Qle_bool_false (x y : Q) : Qle_bool x y = false <-> y < x.
Proof.
  split.
  - intros H. apply Qnot_le_lt. intros Hle.
    apply Qle_bool_iff in Hle. congruence.
  - intros H. destruct (Qle_bool x y) eqn:E; [|reflexivity].
    apply Qle_bool_iff in E. exfalso. revert E. now apply Qlt_not_le.
Qed.

Lemma Qlt_bool_iff (x y : Q) : Qlt_bool x y = true <-> x < y.
Proof.
  unfold Qlt_bool. rewrite negb_true_iff. apply Qle_bool_false.
Qed.

Lemma Qlt_bool_false (x y : Q) : Qlt_bool x y = false <-> y <= x.
Proof.
  unfold Qlt_bool. rewrite negb_false_iff. apply Qle_bool_iff.
Qed.

Lemma Qeq_bool_false (x y : Q) : Qeq_bool x y = false <-> ~ x == y.
Proof.
  split.
  - apply Qeq_bool_neq.
  - intros H. destruct (Qeq_bool x y) eqn:E; [|reflexivity].
    apply Qeq_bool_iff in E. contradiction.
Qed.

Lemma py_div_ok (a b : Q) : ~ b == 0 -> py_div a b = Ok (a / b).
Proof.
  intros H. unfold py_div. now rewrite (proj2 (Qeq_bool_false b 0) H).
Qed.

Lemma py_div_zero (a b : Q) : b == 0 -> py_div a b = Raise ZeroDivisionError.
Proof.
  intros H. unfold py_div. now rewrite (Qeq_eq_bool _ _ H).
Qed.

Lemma py_pow_nonzero (base : Q) (n : Z) :
  ~ base == 0 -> ~ py_pow base n == 0.
Proof.
  intros H. unfold py_pow. now apply Qpower_not_0.
Qed.

Lemma py_last_snoc {A} (xs : list A) (x : A) : py_last (xs ++ [x]) = Ok x.
Proof. unfold py_last. now rewrite last_snoc. Qed.

End Basics.

(** ** The scalar variant *)

Section GdcfProperties.
Import Gdcf.
Local Open Scope Q_scope.

(** *** The projection loop *)

Lemma project_fold (rs : list Q) :
  forall (acc : list Q) (x : Q),
    fst (fold_left project_step rs (acc, x)) = acc ++ spec_projected x rs.
Proof.
  induction rs as [|g rs IH]; intros acc x; simpl.
  - now rewrite app_nil_r.
  - rewrite IH, <- app_assoc. reflexivity.
Qed.

Lemma project_fcfs_spec (fcf : Q) (rs : list Q) :
  project_fcfs fcf rs = spec_projected fcf rs.
Proof. unfold project_fcfs. now rewrite project_fold. Qed.

Lemma spec_projected_length (rs : list Q) :
  forall x, length (spec_projected x rs) = length rs.
Proof. induction rs as [|g rs IH]; intros x; simpl; [|rewrite IH]; reflexivity. Qed.

Lemma spec_projected_first (x g : Q) (rs : list Q) :
  rs !! 0%nat = Some g -> spec_projected x rs !! 0%nat = Some (x * (1 + g)).
Proof. destruct rs as [|g' rs]; simpl; intros H; now inversion H. Qed.

Lemma spec_projected_next (rs : list Q) :
  forall (x : Q) (i : nat) (prev g : Q),
    spec_projected x rs !! i = Some prev ->
    rs !! S i = Some g ->
    spec_projected x rs !! S i = Some (prev * (1 + g)).
Proof.
  induction rs as [|g0 rs IH]; intros x i prev g Hp Hg; [discriminate|].
  destruct i as [|i].
  - simpl in Hp. inversion Hp; subst. simpl in Hg.
    simpl. now apply spec_projected_first.
  - simpl in *. now apply IH.
Qed.

Lemma spec_projected_nonempty (x : Q) (rs : list Q) :
  rs <> [] -> exists y, last (spec_projected x rs) = Some y.
Proof.
  intros H. destruct (last (spec_projected x rs)) as [y|] eqn:E; [eauto|].
  apply last_None in E. apply (f_equal length) in E.
  rewrite spec_projected_length in E. destruct rs; [contradiction|discriminate].
Qed.

(** *** The discounting loop *)

Lemma discount_fold (wacc : Q) (Hw : ~ 1 + wacc == 0) (l : list Q) :
  forall (k : nat) (a : Q),
    fold_left (discount_step wacc) (combine (seq k (length l)) l) (Ok a)
    = Ok (fold_left Qplus
            (imap (fun i => spec_present_value wacc (k + i)) l) a).
Proof.
  induction l as [|x l IH]; intros k a; [reflexivity|].
  simpl. rewrite py_div_ok by now apply py_pow_nonzero.
  simpl. rewrite IH, Nat.add_0_r. f_equal. f_equal.
  apply imap_ext. intros i y _. simpl.
  now replace (k + S i)%nat with (S (k + i)) by lia.
Qed.

Lemma discount_fcfs_spec (wacc : Q) (fcfs : list Q) :
  ~ 1 + wacc == 0 ->
  discount_fcfs wacc fcfs = Ok (spec_sum (spec_present_values wacc fcfs)).
Proof.
  intros Hw. unfold discount_fcfs, enumerate.
  now rewrite discount_fold.
Qed.

Lemma discount_never_index (wacc : Q) (l : list (nat * Q)) :
  forall acc, acc <> Raise IndexError ->
    fold_left (discount_step wacc) l acc <> Raise IndexError.
Proof.
  induction l as [|ix l IH]; intros acc Hacc; simpl; [assumption|].
  apply IH. destruct acc as [a|e]; simpl; [|assumption].
  unfold py_div. destruct (Qeq_bool _ 0); simpl; discriminate.
Qed.

(** *** [calc] on parameters that pass its checks *)

Lemma one_plus_nonzero (x : Q) : 0 < x -> ~ 1 + x == 0.
Proof. intros Hx He. lra. Qed.

Lemma gap_nonzero (g r : Q) : g < r -> ~ r - g == 0.
Proof. intros Hlt He. lra. Qed.

Lemma positive_nonzero (x : Q) : Qle_bool x 0 = false -> ~ x == 0.
Proof. intros H He. apply Qle_bool_false in H. lra. Qed.

Lemma warning_step (self : DCF) (w : world) :
  (if Qle_bool (_current_fcf self) 0 then print [Lit msg_warning] else ret tt) w
  = (warned self w, Ok tt).
Proof. unfold warned. now destruct (Qle_bool (_current_fcf self) 0). Qed.

Lemma calc_checked (self : DCF) (w : world) :
  _terminal_growth_rate self < _wacc self ->
  _growth_rates self <> [] ->
  ~ 1 + _wacc self == 0 ->
  calc self w
  = (warned self w,
     Ok (if Qle_bool (_shares_outstanding self) 0 then Return0
         else ReturnDict (spec_valuation self))).
Proof.
  intros Hg Hne Hw. unfold calc.
  rewrite (proj2 (Qle_bool_false _ _) Hg).
  destruct (_growth_rates self) as [|g0 rs] eqn:Hrs; [contradiction|].
  unfold bind at 1. rewrite warning_step.
  unfold bind, lift, ret.
  rewrite project_fcfs_spec, discount_fcfs_spec by assumption.
  destruct (spec_projected_nonempty (_current_fcf self) (g0 :: rs) Hne)
    as [y Hy].
  unfold py_last. rewrite Hy.
  rewrite py_div_ok by now apply gap_nonzero.
  rewrite py_div_ok by now apply py_pow_nonzero.
  destruct (Qle_bool (_shares_outstanding self) 0) eqn:Hs; [reflexivity|].
  rewrite py_div_ok by now apply positive_nonzero.
  unfold spec_valuation, spec_terminal_value, spec_pv_terminal, py_pow.
  now rewrite Hrs, Hy.
Qed.

Lemma calc_valid (self : DCF) (w : world) :
  _terminal_growth_rate self < _wacc self ->
  _growth_rates self <> [] ->
  0 < _wacc self ->
  0 < _shares_outstanding self ->
  calc self w = (warned self w, Ok (ReturnDict (spec_valuation self))).
Proof.
  intros Hg Hne Hw Hs.
  rewrite calc_checked by (try apply one_plus_nonzero; assumption).
  now rewrite (proj2 (Qle_bool_false _ _) Hs).
Qed.

(** *** The setters keep their invariant *)

Lemma init_invariant : setter_invariant __init__.
Proof. unfold setter_invariant, __init__; simpl. repeat split; lra. Qed.

Lemma setters_keep_invariant (v : pyval) (self self' : DCF) :
  setter_invariant self ->
  set_current_fcf v self = Ok self' \/ set_growth_rates v self = Ok self' \/
  set_terminal_growth_rate v self = Ok self' \/ set_wacc v self = Ok self' \/
  set_cash_and_equivalents v self = Ok self' \/
  set_total_debt v self = Ok self' \/ set_shares_outstanding v self = Ok self' ->
  setter_invariant self'.
Proof.
  unfold setter_invariant. intros (H1 & H2 & H3 & H4 & H5 & H6) Hset.
  destruct Hset as [H|[H|[H|[H|[H|[H|H]]]]]].
  - unfold set_current_fcf in H. destruct (as_number v) as [x|]; [|discriminate].
    destruct (Qlt_bool x 0) eqn:E; [discriminate|].
    apply Qlt_bool_false in E. inversion H; subst; simpl. tauto.
  - unfold set_growth_rates in H. destruct v; try discriminate.
    destruct (mapM as_number l); [|discriminate].
    inversion H; subst; simpl. tauto.
  - unfold set_terminal_growth_rate in H.
    destruct (as_number v); [|discriminate]. inversion H; subst; simpl. tauto.
  - unfold set_wacc in H. destruct (as_number v) as [x|]; [|discriminate].
    destruct (Qlt_bool 0 x) eqn:E1; [|discriminate].
    destruct (Qlt_bool x 1) eqn:E2; [|discriminate].
    apply Qlt_bool_iff in E1, E2. inversion H; subst; simpl. tauto.
  - unfold set_cash_and_equivalents in H.
    destruct (as_number v) as [x|]; [|discriminate].
    destruct (Qlt_bool x 0) eqn:E; [discriminate|].
    apply Qlt_bool_false in E. inversion H; subst; simpl. tauto.
  - unfold set_total_debt in H.
    destruct (as_number v) as [x|]; [|discriminate].
    destruct (Qlt_bool x 0) eqn:E; [discriminate|].
    apply Qlt_bool_false in E. inversion H; subst; simpl. tauto.
  - unfold set_shares_outstanding in H.
    destruct (as_number v) as [x|]; [|discriminate].
    destruct (Qle_bool x 0) eqn:E; [discriminate|].
    apply Qle_bool_false in E. inversion H; subst; simpl. tauto.
Qed.

Lemma scenario_A_builds : scenario_A = Ok scenario_A_state.
Proof. reflexivity. Qed.

(** *** Projection and discounting *)

(** C3.  For a non-empty list of growth rates of length N and parameters
    that pass the checks (terminal growth rate below a positive WACC,
    positive share count), [calc] returns its dictionary; the projected
    flows are N in number, the first is the current FCF times
    (1 + growth_rates[0]), every later one is its predecessor times
    (1 + growth_rates[i]), and the discounted total is the sum, over the
    indices i, of the flow at i divided by (1 + wacc)^(i+1). *)
Theorem calc_projects_and_discounts (self : DCF) (w : world) :
  _terminal_growth_rate self < _wacc self ->
  _growth_rates self <> [] ->
  0 < _wacc self ->
  0 < _shares_outstanding self ->
  exists v : valuation,
    calc self w = (warned self w, Ok (ReturnDict v)) /\
    length (projected_fcfs v) = length (_growth_rates self) /\
    (forall g, _growth_rates self !! 0%nat = Some g ->
       projected_fcfs v !! 0%nat = Some (_current_fcf self * (1 + g))) /\
    (forall (i : nat) (prev g : Q),
       projected_fcfs v !! i = Some prev ->
       _growth_rates self !! S i = Some g ->
       projected_fcfs v !! S i = Some (prev * (1 + g))) /\
    present_value_of_fcfs v
    = fold_left Qplus
        (imap (fun i fcf => fcf / (1 + _wacc self) ^ Z.of_nat (i + 1))
           (projected_fcfs v)) 0.
Proof.
  intros Hg Hne Hw Hs. exists (spec_valuation self).
  split; [now apply calc_valid|]. simpl.
  split; [apply spec_projected_length|].
  split; [intros g; apply spec_projected_first|].
  split; [apply spec_projected_next|reflexivity].
Qed.

Lemma calc_projects_and_discounts_witness :
  exists v : valuation,
    calc scenario_A_state (World [] []) = (World [] [], Ok (ReturnDict v)) /\
    length (projected_fcfs v) = 5%nat /\
    (forall g, scenario_A_state.(_growth_rates) !! 0%nat = Some g ->
       projected_fcfs v !! 0%nat = Some (100 * (1 + g))) /\
    (forall (i : nat) (prev g : Q),
       projected_fcfs v !! i = Some prev ->
       scenario_A_state.(_growth_rates) !! S i = Some g ->
       projected_fcfs v !! S i = Some (prev * (1 + g))) /\
    present_value_of_fcfs v
    = fold_left Qplus
        (imap (fun i fcf => fcf / (1 + 0.09) ^ Z.of_nat (i + 1))
           (projected_fcfs v)) 0.
Proof.
  apply (calc_projects_and_discounts scenario_A_state (World [] []));
    [reflexivity | discriminate | reflexivity | reflexivity].
Defined.

(** *** The roll-up *)

(** C4.  On parameters that pass the checks, the returned enterprise value
    is the discounted total of the projected flows (the sum of their
    present values) plus the present value of the terminal value, the
    equity value is the enterprise value plus cash minus debt, and the
    value per share is the equity value divided by the share count; each
    is that exact rational expression, nothing is rounded. *)
Theorem calc_roll_up (self : DCF) (w : world) :
  _terminal_growth_rate self < _wacc self ->
  _growth_rates self <> [] ->
  0 < _wacc self ->
  0 < _shares_outstanding self ->
  exists v : valuation,
    calc self w = (warned self w, Ok (ReturnDict v)) /\
    present_value_of_fcfs v
    = spec_sum (spec_present_values (_wacc self) (projected_fcfs v)) /\
    enterprise_value v
    = present_value_of_fcfs v + present_value_of_terminal_value v /\
    equity_value v
    = enterprise_value v + _cash_and_equivalents self - _total_debt self /\
    intrinsic_value_per_share v = equity_value v / _shares_outstanding self.
Proof.
  intros Hg Hne Hw Hs. exists (spec_valuation self).
  split; [now apply calc_valid|]. simpl. repeat split.
Qed.

Lemma calc_roll_up_witness :
  exists v : valuation,
    calc scenario_A_state (World [] []) = (World [] [], Ok (ReturnDict v)) /\
    present_value_of_fcfs v
    = spec_sum (spec_present_values 0.09 (projected_fcfs v)) /\
    enterprise_value v
    = present_value_of_fcfs v + present_value_of_terminal_value v /\
    equity_value v = enterprise_value v + 50 - 20 /\
    intrinsic_value_per_share v = equity_value v / 100.
Proof.
  apply (calc_roll_up scenario_A_state (World [] []));
    [reflexivity | discriminate | reflexivity | reflexivity].
Defined.

(** *** Scenario A *)

(** C6.  With current_fcf=100, growth_rates=[0.15, 0.10, 0.08, 0.05, 0.03],
    terminal_growth_rate=0.02, wacc=0.09, cash=50, debt=20 and shares=100
    every setter accepts its argument and [calc] returns its dictionary
    without printing; the projected flows are 115.0, 126.5, 136.62, 143.451
    and 147.75453, and enterprise value, equity value and value per share
    are the values of the formulas of sections 4.3 to 4.5, which are
    270236878500/141158161, 274471623330/141158161 and
    27447162333/1411581610. *)
Theorem scenario_A_result :
  exists (d : DCF) (v : valuation),
    scenario_A = Ok d /\
    (forall w, calc d w = (w, Ok (ReturnDict v))) /\
    Forall2 Qeq (projected_fcfs v) scenario_A_fcfs /\
    enterprise_value v
    == spec_sum (spec_present_values 0.09 scenario_A_fcfs)
       + spec_pv_terminal (spec_terminal_value 147.75453 0.02 0.09) 0.09 5 /\
    equity_value v
    == spec_sum (spec_present_values 0.09 scenario_A_fcfs)
       + spec_pv_terminal (spec_terminal_value 147.75453 0.02 0.09) 0.09 5
       + 50 - 20 /\
    intrinsic_value_per_share v
    == (spec_sum (spec_present_values 0.09 scenario_A_fcfs)
        + spec_pv_terminal (spec_terminal_value 147.75453 0.02 0.09) 0.09 5
        + 50 - 20) / 100 /\
    enterprise_value v == 270236878500 # 141158161 /\
    equity_value v == 274471623330 # 141158161 /\
    intrinsic_value_per_share v == 27447162333 # 1411581610.
Proof.
  exists scenario_A_state, (spec_valuation scenario_A_state).
  split; [reflexivity|].
  split.
  { intros w. rewrite calc_valid by (reflexivity || discriminate).
    reflexivity. }
  split.
  { vm_compute. repeat constructor. }
  repeat split; vm_compute; reflexivity.
Qed.

(** *** A share count that is not positive *)

(** C7.  When the share count held by the object is zero or negative as
    [calc] runs, and the other parameters pass the checks of [calc] (a
    terminal growth rate below the WACC, a non-empty list of growth rates,
    1 + WACC not zero), [calc] raises nothing and returns 0. *)
Theorem calc_nonpositive_shares (self : DCF) (w : world) :
  _terminal_growth_rate self < _wacc self ->
  _growth_rates self <> [] ->
  ~ 1 + _wacc self == 0 ->
  _shares_outstanding self <= 0 ->
  calc self w = (warned self w, Ok Return0).
Proof.
  intros Hg Hne Hw Hs. rewrite calc_checked by assumption.
  now rewrite (proj2 (Qle_bool_iff _ _) Hs).
Qed.

Lemma calc_nonpositive_shares_witness :
  calc scenario_C_state (World [] []) = (World [] [], Ok Return0).
Proof.
  apply (calc_nonpositive_shares scenario_C_state (World [] []));
    [reflexivity | discriminate | discriminate | discriminate].
Defined.

(** *** Validation by the setters *)

Lemma mapM_as_number_None (l : list pyval) (e : pyval) :
  e ∈ l -> non_numeric e -> mapM as_number l = None.
Proof.
  intros Hin Hn. destruct (mapM as_number l) as [rs|] eqn:E; [|reflexivity].
  apply mapM_Some in E.
  destruct (proj1 (list_elem_of_lookup l e) Hin) as [i Hi].
  destruct (Forall2_lookup_l _ _ _ _ _ E Hi) as (x & _ & Hx).
  unfold non_numeric in Hn. congruence.
Qed.

(** C8.  Each setter raises a [ValueError], and so stores nothing, on: a
    current FCF that is no number or is negative; growth rates that are not
    a list or are a list with an entry that is no number; a terminal growth
    rate that is no number; a WACC that is no number or lies outside the
    open interval (0,1); cash or debt that is no number or is negative; a
    share count that is no number or is not positive.  A current FCF that
    is zero or negative when [calc] runs on parameters that pass its checks
    only prints the warning: [calc] then returns normally. *)
Theorem input_validation :
  (forall v self,
     non_numeric v \/ numeric_with (fun x => x < 0) v ->
     rejected (set_current_fcf v self)) /\
  (forall v self,
     (forall l, v <> PList l) \/
     (exists l e, v = PList l /\ e ∈ l /\ non_numeric e) ->
     rejected (set_growth_rates v self)) /\
  (forall v self,
     non_numeric v -> rejected (set_terminal_growth_rate v self)) /\
  (forall v self,
     non_numeric v \/ numeric_with (fun x => x <= 0 \/ 1 <= x) v ->
     rejected (set_wacc v self)) /\
  (forall v self,
     non_numeric v \/ numeric_with (fun x => x < 0) v ->
     rejected (set_cash_and_equivalents v self)) /\
  (forall v self,
     non_numeric v \/ numeric_with (fun x => x < 0) v ->
     rejected (set_total_debt v self)) /\
  (forall v self,
     non_numeric v \/ numeric_with (fun x => x <= 0) v ->
     rejected (set_shares_outstanding v self)) /\
  (forall self w,
     _current_fcf self <= 0 ->
     _terminal_growth_rate self < _wacc self ->
     _growth_rates self <> [] ->
     ~ 1 + _wacc self == 0 ->
     exists r, calc self w = (emit (Print [Lit msg_warning]) w, Ok r)).
Proof.
  unfold rejected, non_numeric, numeric_with.
  repeat apply conj.
  - intros v self [Hn|(x & Hx & Hneg)]; unfold set_current_fcf.
    + rewrite Hn. eauto.
    + rewrite Hx, (proj2 (Qlt_bool_iff _ _) Hneg). eauto.
  - intros v self [Hl|(l & e & -> & Hin & Hn)]; unfold set_growth_rates.
    + destruct v; eauto. now destruct (Hl l).
    + rewrite (mapM_as_number_None l e Hin Hn). eauto.
  - intros v self Hn. unfold set_terminal_growth_rate. rewrite Hn. eauto.
  - intros v self [Hn|(x & Hx & Hout)]; unfold set_wacc.
    + rewrite Hn. eauto.
    + rewrite Hx. destruct Hout as [Hlo|Hhi].
      * rewrite (proj2 (Qlt_bool_false 0 x) Hlo). simpl. eauto.
      * rewrite (proj2 (Qlt_bool_false x 1) Hhi), andb_false_r. eauto.
  - intros v self [Hn|(x & Hx & Hneg)]; unfold set_cash_and_equivalents.
    + rewrite Hn. eauto.
    + rewrite Hx, (proj2 (Qlt_bool_iff _ _) Hneg). eauto.
  - intros v self [Hn|(x & Hx & Hneg)]; unfold set_total_debt.
    + rewrite Hn. eauto.
    + rewrite Hx, (proj2 (Qlt_bool_iff _ _) Hneg). eauto.
  - intros v self [Hn|(x & Hx & Hnp)]; unfold set_shares_outstanding.
    + rewrite Hn. eauto.
    + rewrite Hx, (proj2 (Qle_bool_iff _ _) Hnp). eauto.
  - intros self w Hfcf Hg Hne Hw. rewrite calc_checked by assumption.
    unfold warned. rewrite (proj2 (Qle_bool_iff _ _) Hfcf). eauto.
Qed.

Lemma input_validation_witness :
  rejected (set_current_fcf (PStr "100") __init__) /\
  rejected (set_current_fcf (PInt (-1)) __init__) /\
  rejected (set_growth_rates (PFloat 0.15) __init__) /\
  rejected (set_growth_rates (PList [PFloat 0.15; PStr "0.10"]) __init__) /\
  rejected (set_terminal_growth_rate PNone __init__) /\
  rejected (set_wacc (PInt 1) __init__) /\
  rejected (set_cash_and_equivalents (PFloat (-0.5)) __init__) /\
  rejected (set_total_debt (PList []) __init__) /\
  rejected (set_shares_outstanding (PInt 0) __init__) /\
  exists r,
    calc zero_fcf_state (World [] [])
    = (World [Print [Lit msg_warning]] [], Ok r).
Proof.
  destruct input_validation
    as (Hfcf & Hrates & Htgr & Hwacc & Hcash & Hdebt & Hshares & Hcalc).
  split; [apply Hfcf; left; reflexivity|].
  split; [apply Hfcf; right; exists (inject_Z (-1)); split;
          [reflexivity | reflexivity]|].
  split; [apply Hrates; left; discriminate|].
  split; [apply Hrates; right;
          exists [PFloat 0.15; PStr "0.10"], (PStr "0.10");
          split; [reflexivity | split; [set_solver | reflexivity]]|].
  split; [apply Htgr; reflexivity|].
  split; [apply Hwacc; right; exists (inject_Z 1); split;
          [reflexivity | right; discriminate]|].
  split; [apply Hcash; right; exists (-0.5); split;
          [reflexivity | reflexivity]|].
  split; [apply Hdebt; left; reflexivity|].
  split; [apply Hshares; right; exists (inject_Z 0); split;
          [reflexivity | discriminate]|].
  apply (Hcalc zero_fcf_state (World [] []));
    [discriminate | reflexivity | discriminate | discriminate].
Defined.

(** *** The last projected flow *)

(** C10.  With an empty list of growth rates [calc] raises a [ValueError]
    before it prints, projects or discounts anything; and when the two
    checks at the start of [calc] pass, the list of projected flows is not
    empty, so reading its last element succeeds: no run of [calc] ends in
    an IndexError. *)
Theorem calc_last_flow_defined :
  (forall self w,
     _growth_rates self = [] ->
     exists msg, calc self w = (w, Raise (ValueError msg))) /\
  (forall self,
     _terminal_growth_rate self < _wacc self ->
     _growth_rates self <> [] ->
     project_fcfs (_current_fcf self) (_growth_rates self) <> [] /\
     exists y,
       py_last (project_fcfs (_current_fcf self) (_growth_rates self)) = Ok y) /\
  (forall self w, snd (calc self w) <> Raise IndexError).
Proof.
  repeat apply conj.
  - intros self w Hrs. unfold calc. rewrite Hrs.
    destruct (Qle_bool _ _); eauto.
  - intros self _ Hne. rewrite project_fcfs_spec.
    destruct (spec_projected_nonempty (_current_fcf self) _ Hne) as [y Hy].
    split; [intros E; now rewrite E in Hy|].
    exists y. unfold py_last. now rewrite Hy.
  - intros self w. unfold calc.
    destruct (Qle_bool (_wacc self) _); [discriminate|].
    destruct (_growth_rates self) as [|g0 rs] eqn:Hrs; [discriminate|].
    unfold bind at 1. rewrite warning_step. unfold bind, lift, ret.
    rewrite project_fcfs_spec.
    pose proof (discount_never_index (_wacc self)
      (enumerate (spec_projected (_current_fcf self) (g0 :: rs))) (Ok 0)) as Hd.
    fold (discount_fcfs (_wacc self)
            (spec_projected (_current_fcf self) (g0 :: rs))) in Hd.
    destruct (discount_fcfs _ _) as [pv|e].
    2:{ simpl. intros He. apply Hd; [discriminate|]. now inversion He. }
    destruct (spec_projected_nonempty (_current_fcf self) (g0 :: rs))
      as [y Hy]; [discriminate|].
    unfold py_last. rewrite Hy. unfold py_div.
    repeat match goal with
           | |- context [Qeq_bool ?a ?b] => destruct (Qeq_bool a b); simpl
           | |- context [Qle_bool ?a ?b] => destruct (Qle_bool a b); simpl
           end; discriminate.
Qed.

Lemma calc_last_flow_defined_witness :
  (exists msg, calc __init__ (World [] []) = (World [] [], Raise (ValueError msg))) /\
  (project_fcfs 100 [0.15; 0.10; 0.08; 0.05; 0.03] <> [] /\
   exists y, py_last (project_fcfs 100 [0.15; 0.10; 0.08; 0.05; 0.03]) = Ok y).
Proof.
  destruct calc_last_flow_defined as (Hempty & Hlast & _).
  split.
  - apply (Hempty __init__ (World [] [])). reflexivity.
  - apply (Hlast scenario_A_state); [reflexivity | discriminate].
Defined.

End GdcfProperties.

(** ** The statement-driven variant *)

Section Dcf_m1Properties.
Import Dcf_m1.
Local Open Scope Q_scope.

Variable float_of_str : string -> option Q.
Variable int_of_str : string -> option Z.

(** *** Computations that read nothing *)

Lemma input_calls_print (out : list event) (line : list piece) :
  input_calls (out ++ [Print line]) = input_calls out.
Proof.
  unfold input_calls. rewrite filter_app, length_app. simpl. lia.
Qed.

Lemma input_calls_input (out : list event) (prompt : list piece) :
  input_calls (out ++ [Input prompt]) = S (input_calls out).
Proof.
  unfold input_calls. rewrite filter_app, length_app. simpl. lia.
Qed.

Lemma no_input_lift {A} (r : res A) : no_input (lift r).
Proof. intros w. now split. Qed.

Lemma no_input_ret {A} (a : A) : no_input (ret a).
Proof. intros w. now split. Qed.

Lemma no_input_print (line : list piece) : no_input (print line).
Proof. intros w. split; [reflexivity|]. simpl. apply input_calls_print. Qed.

Lemma no_input_bind {A B} (m : M A) (k : A -> M B) :
  no_input m -> (forall a, no_input (k a)) -> no_input (bind m k).
Proof.
  intros Hm Hk w. unfold bind. specialize (Hm w).
  destruct (m w) as [w1 [a|e]]; simpl in *; [|assumption].
  destruct (Hk a w1) as [H1 H2]. destruct Hm as [H3 H4]. split; congruence.
Qed.

Lemma bind_no_input {A B} (m : M A) (k : A -> M B) (w : world) :
  (forall a, no_input (k a)) ->
  stdin (fst (bind m k w)) = stdin (fst (m w)) /\
  input_calls (stdout (fst (bind m k w))) = input_calls (stdout (fst (m w))).
Proof.
  intros Hk. unfold bind. destruct (m w) as [w1 [a|e]]; simpl; [|now split].
  apply Hk.
Qed.

Lemma no_input_forecast_year inc tax d egr cgr st yr :
  no_input (forecast_year int_of_str inc tax d egr cgr st yr).
Proof.
  unfold forecast_year.
  repeat (apply no_input_bind; [|intros ?]);
    auto using @no_input_lift, @no_input_ret, no_input_print.
Qed.

Lemma no_input_forecast_loop inc tax d egr cgr years :
  forall acc, no_input acc ->
    no_input
      (fold_left
         (fun acc yr =>
            bind acc (fun st => forecast_year int_of_str inc tax d egr cgr st yr))
         years acc).
Proof.
  induction years as [|yr years IH]; intros acc Hacc; simpl; [assumption|].
  apply IH. apply no_input_bind; [assumption|].
  intros st. apply no_input_forecast_year.
Qed.

(** *** The forecast loop *)

Lemma range_nil : range 1 (Z.of_nat 0 + 1) = [].
Proof. reflexivity. Qed.

Lemma range_succ (n : nat) :
  range 1 (Z.of_nat (S n) + 1) = range 1 (Z.of_nat n + 1) ++ [Z.of_nat (S n)].
Proof.
  unfold range.
  replace (Z.to_nat (Z.of_nat (S n) + 1 - 1)) with (S n) by lia.
  replace (Z.to_nat (Z.of_nat n + 1 - 1)) with n by lia.
  rewrite seq_S, map_app. simpl. do 2 f_equal. lia.
Qed.

Lemma range_length (n : nat) : length (range 1 (Z.of_nat n + 1)) = n.
Proof.
  unfold range. rewrite length_map, length_seq. lia.
Qed.

Section Loop.

Variables (income_statement : statement) (inc0 : gmap string pyval).
Variables (date : pyval) (year : Z).
Variables (tax_rate discount egr cgr : Q).

Hypothesis base_year_record : income_statement !! 0%nat = Some inc0.
Hypothesis date_item : inc0 !! "date"%string = Some date.
Hypothesis date_year : year_of int_of_str date = Ok year.
Hypothesis discount_defined : ~ 1 + discount == 0.

Lemma forecast_year_run (st : running) (yr : Z) (w : world) :
  exists line,
    forecast_year int_of_str income_statement tax_rate discount egr cgr st yr w
    = (emit (Print line) w, Ok (spec_year tax_rate discount egr cgr yr st)).
Proof.
  unfold forecast_year, bind, lift, print, ret.
  rewrite py_div_ok by now apply py_pow_nonzero.
  unfold py_index. rewrite base_year_record.
  unfold py_getitem. rewrite date_item, date_year.
  eexists. reflexivity.
Qed.

Lemma forecast_loop_run (st0 : running) (n : nat) :
  forall w, exists w',
    forecast_loop int_of_str income_statement tax_rate discount egr cgr
      (range 1 (Z.of_nat n + 1)) st0 w
    = (w', Ok (spec_years tax_rate discount egr cgr n st0)) /\
    stdin w' = stdin w /\
    input_calls (stdout w') = input_calls (stdout w).
Proof.
  induction n as [|n IH]; intros w.
  - exists w. rewrite range_nil. now split.
  - destruct (IH w) as (w1 & Hrun & Hin & Hcalls).
    destruct (forecast_year_run
                (spec_years tax_rate discount egr cgr n st0)
                (Z.of_nat (S n)) w1) as [line Hyear].
    exists (emit (Print line) w1).
    unfold forecast_loop in *. rewrite range_succ, fold_left_app. simpl.
    unfold bind at 1. rewrite Hrun, Hyear.
    repeat split; [assumption|]. simpl. now rewrite input_calls_print.
Qed.

Lemma spec_years_flows (st0 : running) (n : nat) :
  r_flows (spec_years tax_rate discount egr cgr n st0)
  = r_flows st0
    ++ map (fun k =>
              let st := spec_years tax_rate discount egr cgr (S k) st0 in
              _ulFCF (r_ebit st) tax_rate (r_non_cash_charges st) (r_cwc st)
                (r_cap_ex st) / (1 + discount) ^ Z.of_nat (S k))
         (seq 0 n).
Proof.
  induction n as [|n IH]; [simpl; now rewrite app_nil_r|].
  rewrite seq_S, map_app, app_assoc, <- IH. reflexivity.
Qed.

(** C5.  When the base-year record carries a date whose first four
    characters [int] accepts and 1 + discount_rate is not zero, the loop
    over the years 1 to n returns the running quantities [st n], where
    [st 0] holds the base-year values and, for every year index yr = k + 1
    up to n, the quantities [st (k+1)] come from [st k] by
    ebit x (1 + yr x earnings_growth_rate),
    non_cash_charges x (1 + yr x earnings_growth_rate), cwc x 0.7 and
    cap_ex x (1 + yr x cap_ex_growth_rate); the entry for that year in the
    returned list of flows is the year's unlevered free cash flow
    ebit x (1 - tax_rate) + non_cash_charges + cwc + cap_ex divided by
    (1 + discount_rate)^yr. *)
Theorem forecast_loop_updates (b : base_year) (n : nat) :
  let st := fun k =>
    spec_years tax_rate discount egr cgr k (initial_state b) in
  (forall w,
     snd (forecast_loop int_of_str income_statement tax_rate discount egr cgr
            (range 1 (Z.of_nat n + 1)) (initial_state b) w)
     = Ok (st n)) /\
  st 0%nat = initial_state b /\
  (forall k, (k < n)%nat ->
     let yr := Z.of_nat (S k) in
     r_ebit (st (S k)) = r_ebit (st k) * (1 + inject_Z yr * egr) /\
     r_non_cash_charges (st (S k))
     = r_non_cash_charges (st k) * (1 + inject_Z yr * egr) /\
     r_cwc (st (S k)) = r_cwc (st k) * 0.7 /\
     r_cap_ex (st (S k)) = r_cap_ex (st k) * (1 + inject_Z yr * cgr) /\
     r_flows (st n) !! k
     = Some (_ulFCF (r_ebit (st (S k))) tax_rate
               (r_non_cash_charges (st (S k))) (r_cwc (st (S k)))
               (r_cap_ex (st (S k)))
             / (1 + discount) ^ yr)).
Proof.
  intros st. split; [|split; [reflexivity|]].
  - intros w. destruct (forecast_loop_run (initial_state b) n w)
      as (w' & Hrun & _). now rewrite Hrun.
  - intros k Hk yr. repeat split.
    unfold st. rewrite spec_years_flows. simpl.
    rewrite list_lookup_fmap, lookup_seq_lt by assumption. reflexivity.
Qed.

End Loop.

(** *** The forecast and the terminal value *)

Lemma forecast_run
    (inc cf bal : statement) (inc0 : gmap string pyval) (date : pyval)
    (year : Z) (n : nat) (d egr cgr : Q) (b : base_year) (w w1 : world) :
  base_year_inputs float_of_str inc cf bal w = (w1, Ok b) ->
  inc !! 0%nat = Some inc0 ->
  inc0 !! "date"%string = Some date ->
  year_of int_of_str date = Ok year ->
  ~ 1 + d == 0 ->
  exists w2,
    forecast float_of_str int_of_str inc cf bal (Z.of_nat n) d egr cgr w
    = (w2, Ok (b, spec_years (b_tax_rate b) d egr cgr n (initial_state b))).
Proof.
  intros Hb Hinc Hdate Hyear Hd. unfold forecast.
  unfold bind at 1. rewrite Hb.
  unfold bind at 1, lift at 1, py_index. rewrite Hinc.
  unfold bind at 1, lift at 1, py_getitem. rewrite Hdate.
  unfold bind at 1, print at 1.
  unfold bind at 1.
  match goal with
  | |- context [forecast_loop _ _ _ _ _ _ _ _ ?w0] =>
      destruct (forecast_loop_run inc inc0 date year (b_tax_rate b) d egr cgr
                  Hinc Hdate Hyear Hd (initial_state b) n w0)
        as (w2 & Hrun & _)
  end.
  exists w2. unfold ret. now rewrite Hrun.
Qed.

Lemma spec_years_last (tax d egr cgr : Q) (st0 : running) (n : nat) :
  let st := spec_years tax d egr cgr (S n) st0 in
  last (r_flows st)
  = Some (_ulFCF (r_ebit st) tax (r_non_cash_charges st) (r_cwc st)
            (r_cap_ex st) / (1 + d) ^ Z.of_nat (S n)).
Proof. simpl. now rewrite last_snoc. Qed.

Lemma spec_years_length (tax d egr cgr : Q) (st0 : running) (n : nat) :
  length (r_flows (spec_years tax d egr cgr n st0))
  = (length (r_flows st0) + n)%nat.
Proof.
  induction n as [|n IH]; simpl; [lia|].
  rewrite length_app, IH. simpl. lia.
Qed.

(** What lines 126-132 make of the forecast. *)
Lemma enterprise_value_of_forecast
    (inc cf bal : statement) (period : Z) (d egr cgr pgr : Q)
    (b : base_year) (st : running) (w w1 : world) :
  forecast float_of_str int_of_str inc cf bal period d egr cgr w
  = (w1, Ok (b, st)) ->
  _enterprise_value_calculation float_of_str int_of_str inc cf bal period d
    egr cgr pgr w
  = (w1,
     res_bind (terminal_value (r_flows st) d pgr)
       (fun TV =>
          res_bind (py_div TV (py_pow (1 + d) (1 + period)))
            (fun NPV_TV => Ok (NPV_TV + py_sum (r_flows st))))).
Proof.
  intros Hf. unfold _enterprise_value_calculation.
  unfold bind at 1. rewrite Hf. unfold bind, lift, ret. simpl.
  destruct (terminal_value (r_flows st) d pgr) as [tv|e]; simpl; [|reflexivity].
  now destruct (py_div tv (py_pow (1 + d) (1 + period))).
Qed.

(** What lines 126-132 compute from a completed forecast.  When the
    base-year inputs are read, the base-year record carries a date whose
    first four characters [int] accepts, the forecast period n is at least
    1, 1 + discount_rate is not zero and the discount rate differs from the
    perpetual growth rate: the forecast keeps n entries in [flows]; the
    last entry is the final year's unlevered free cash flow already divided
    by (1 + discount_rate)^n; the terminal value is computed from that last
    entry, times (1 + perpetual_growth_rate) divided by
    (discount_rate - perpetual_growth_rate); and the result is the terminal
    value divided by (1 + discount_rate)^(1 + n), plus the sum of the
    entries of [flows]. *)
Theorem terminal_value_of_run
    (inc cf bal : statement) (inc0 : gmap string pyval) (date : pyval)
    (year : Z) (n : nat) (d egr cgr pgr : Q) (b : base_year) (w w1 : world) :
  base_year_inputs float_of_str inc cf bal w = (w1, Ok b) ->
  inc !! 0%nat = Some inc0 ->
  inc0 !! "date"%string = Some date ->
  year_of int_of_str date = Ok year ->
  (1 <= n)%nat ->
  ~ 1 + d == 0 ->
  ~ d - pgr == 0 ->
  exists (w2 : world) (st : running) (pv_final : Q),
    forecast float_of_str int_of_str inc cf bal (Z.of_nat n) d egr cgr w
    = (w2, Ok (b, st)) /\
    length (r_flows st) = n /\
    last (r_flows st) = Some pv_final /\
    pv_final
    = _ulFCF (r_ebit st) (b_tax_rate b) (r_non_cash_charges st) (r_cwc st)
        (r_cap_ex st) / (1 + d) ^ Z.of_nat n /\
    terminal_value (r_flows st) d pgr
    = Ok (pv_final * (1 + pgr) / (d - pgr)) /\
    _enterprise_value_calculation float_of_str int_of_str inc cf bal
      (Z.of_nat n) d egr cgr pgr w
    = (w2,
       Ok (pv_final * (1 + pgr) / (d - pgr) / (1 + d) ^ (1 + Z.of_nat n)
           + py_sum (r_flows st))).
Proof.
  intros Hb Hinc Hdate Hyear Hn Hd Hgap.
  destruct (forecast_run inc cf bal inc0 date year n d egr cgr b w w1
              Hb Hinc Hdate Hyear Hd) as [w2 Hf].
  destruct n as [|m]; [lia|].
  pose proof (spec_years_last (b_tax_rate b) d egr cgr (initial_state b) m)
    as Hlast.
  set (st := spec_years (b_tax_rate b) d egr cgr (S m) (initial_state b)) in *.
  cbv zeta in Hlast.
  assert (Htv : terminal_value (r_flows st) d pgr
                = Ok (_ulFCF (r_ebit st) (b_tax_rate b) (r_non_cash_charges st)
                        (r_cwc st) (r_cap_ex st) / (1 + d) ^ Z.of_nat (S m)
                      * (1 + pgr) / (d - pgr))).
  { unfold terminal_value, py_last. rewrite Hlast. simpl.
    now rewrite py_div_ok. }
  exists w2, st. eexists. split; [exact Hf|].
  split; [unfold st; now rewrite spec_years_length|].
  split; [exact Hlast|]. split; [reflexivity|]. split; [exact Htv|].
  rewrite (enterprise_value_of_forecast _ _ _ _ _ _ _ _ _ _ _ _ Hf), Htv.
  cbn [res_bind]. rewrite py_div_ok by now apply py_pow_nonzero. reflexivity.
Qed.

(** C1, as the code has it.  The scalar variant checks the constraint as
    [calc] starts: a WACC that is not above the terminal growth rate raises
    the [ValueError] of line 85 before anything is printed or computed.
    The statement-driven variant has no such check.  With a discount rate
    equal to the perpetual growth rate its run cannot return a value: it
    ends in an exception, which is the ZeroDivisionError of the Gordon
    Growth division itself whenever the forecast was completed with at
    least one year.  With a discount rate below the perpetual growth rate
    (and 1 + discount_rate not zero) a completed forecast of at least one
    year is carried through the division and a value is returned. *)
Theorem growth_rate_check :
  (forall (self : Gdcf.DCF) (w : world),
     Gdcf._wacc self <= Gdcf._terminal_growth_rate self ->
     Gdcf.calc self w = (w, Raise (ValueError Gdcf.msg_wacc))) /\
  (forall (inc cf bal : statement) (period : Z) (d egr cgr pgr : Q)
          (w : world),
     d == pgr ->
     exists e,
       snd (_enterprise_value_calculation float_of_str int_of_str inc cf bal
              period d egr cgr pgr w) = Raise e) /\
  (forall (inc cf bal : statement) (period : Z) (d egr cgr pgr : Q)
          (b : base_year) (st : running) (w w1 : world),
     d == pgr ->
     forecast float_of_str int_of_str inc cf bal period d egr cgr w
     = (w1, Ok (b, st)) ->
     r_flows st <> [] ->
     _enterprise_value_calculation float_of_str int_of_str inc cf bal period d
       egr cgr pgr w
     = (w1, Raise ZeroDivisionError)) /\
  (forall (inc cf bal : statement) (period : Z) (d egr cgr pgr : Q)
          (b : base_year) (st : running) (w w1 : world) (final : Q),
     d < pgr ->
     forecast float_of_str int_of_str inc cf bal period d egr cgr w
     = (w1, Ok (b, st)) ->
     last (r_flows st) = Some final ->
     ~ 1 + d == 0 ->
     _enterprise_value_calculation float_of_str int_of_str inc cf bal period d
       egr cgr pgr w
     = (w1,
        Ok (final * (1 + pgr) / (d - pgr) / (1 + d) ^ (1 + period)
            + py_sum (r_flows st)))).
Proof.
  assert (Hzero : forall d pgr : Q, d == pgr -> d - pgr == 0)
    by (intros; lra).
  repeat apply conj.
  - intros self w Hle. unfold Gdcf.calc.
    now rewrite (proj2 (Qle_bool_iff _ _) Hle).
  - intros inc cf bal period d egr cgr pgr w Heq.
    destruct (forecast float_of_str int_of_str inc cf bal period d egr cgr w)
      as [w1 [[b st]|e]] eqn:Hf.
    + rewrite (enterprise_value_of_forecast _ _ _ _ _ _ _ _ _ _ _ _ Hf).
      simpl. unfold terminal_value.
      destruct (py_last (r_flows st)) as [final|e]; simpl; [|eauto].
      rewrite py_div_zero by now apply Hzero. simpl. eauto.
    + unfold _enterprise_value_calculation, bind. rewrite Hf. simpl. eauto.
  - intros inc cf bal period d egr cgr pgr b st w w1 Heq Hf Hne.
    rewrite (enterprise_value_of_forecast _ _ _ _ _ _ _ _ _ _ _ _ Hf).
    unfold terminal_value, py_last.
    destruct (last (r_flows st)) as [final|] eqn:El.
    + simpl. rewrite py_div_zero by now apply Hzero. reflexivity.
    + now apply last_None in El.
  - intros inc cf bal period d egr cgr pgr b st w w1 final Hlt Hf Hlast Hd.
    rewrite (enterprise_value_of_forecast _ _ _ _ _ _ _ _ _ _ _ _ Hf).
    unfold terminal_value, py_last. rewrite Hlast. cbn [res_bind].
    rewrite py_div_ok by lra. cbn [res_bind].
    rewrite py_div_ok by now apply py_pow_nonzero. reflexivity.
Qed.

(** *** Where EBIT comes from *)

Lemma read_ebit_present
    (inc : statement) (inc0 : gmap string pyval) (item : pyval) (w : world) :
  inc !! 0%nat = Some inc0 ->
  inc0 !! "EBIT"%string = Some item ->
  truthy item = true ->
  read_ebit float_of_str inc w = (w, py_float float_of_str item).
Proof.
  intros Hinc Hitem Ht.
  unfold read_ebit, bind, lift, py_index, py_getitem.
  now rewrite Hinc, Hitem, Ht.
Qed.

Lemma read_ebit_falsy
    (inc : statement) (inc0 : gmap string pyval) (item date : pyval)
    (w : world) :
  inc !! 0%nat = Some inc0 ->
  inc0 !! "EBIT"%string = Some item ->
  truthy item = false ->
  inc0 !! "date"%string = Some date ->
  read_ebit float_of_str inc w
  = match stdin w with
    | [] => (emit (Input (prompt_ebit date)) w, Raise EOFError)
    | line :: rest =>
        (World (stdout w ++ [Input (prompt_ebit date)]) rest,
         py_float float_of_str (PStr line))
    end.
Proof.
  intros Hinc Hitem Ht Hdate.
  unfold read_ebit, bind, lift, py_index, py_getitem, input.
  rewrite Hinc, Hitem, Ht, Hdate. now destruct (stdin w).
Qed.

Lemma read_ebit_absent
    (inc : statement) (inc0 : gmap string pyval) (w : world) :
  inc !! 0%nat = Some inc0 ->
  inc0 !! "EBIT"%string = None ->
  read_ebit float_of_str inc w = (w, Raise (KeyError "EBIT")).
Proof.
  intros Hinc Hitem.
  unfold read_ebit, bind, lift, py_index, py_getitem.
  now rewrite Hinc, Hitem.
Qed.

Lemma base_year_ebit
    (inc cf bal : statement) (b : base_year) (w w1 : world) :
  base_year_inputs float_of_str inc cf bal w = (w1, Ok b) ->
  read_ebit float_of_str inc w = (w1, Ok (b_ebit b)).
Proof.
  unfold base_year_inputs, bind, lift. intros H.
  destruct (read_ebit float_of_str inc w) as [w' [ebit|e]]; [|discriminate].
  inversion H as [[Hw Hb]]. clear H. f_equal. f_equal.
  repeat match type of Hb with
         | context [res_bind ?r _] =>
             destruct r; cbn [res_bind] in Hb; try discriminate
         end.
  now inversion Hb.
Qed.

Lemma run_reads_like_read_ebit
    (inc cf bal : statement) (period : Z) (d egr cgr pgr : Q) (w : world) :
  let run :=
    _enterprise_value_calculation float_of_str int_of_str inc cf bal period d
      egr cgr pgr w in
  stdin (fst run) = stdin (fst (read_ebit float_of_str inc w)) /\
  input_calls (stdout (fst run))
  = input_calls (stdout (fst (read_ebit float_of_str inc w))).
Proof.
  cbv zeta. unfold _enterprise_value_calculation.
  destruct (bind_no_input
    (forecast float_of_str int_of_str inc cf bal period d egr cgr)
    (fun bs =>
       bind (lift (terminal_value (r_flows (snd bs)) d pgr))
         (fun TV =>
            bind (lift (py_div TV (py_pow (1 + d) (1 + period))))
              (fun NPV_TV => ret (NPV_TV + py_sum (r_flows (snd bs))))))
    w) as [H1 H2].
  { intros bs.
    repeat (apply no_input_bind; [|intros ?]);
      auto using @no_input_lift, @no_input_ret. }
  rewrite H1, H2. clear H1 H2. unfold forecast.
  match goal with
  | |- context [bind (base_year_inputs _ _ _ _) ?k w] =>
      destruct (bind_no_input
                  (base_year_inputs float_of_str inc cf bal) k w) as [H1 H2]
  end.
  { intros b.
    repeat (apply no_input_bind; [|intros ?]);
      auto using @no_input_lift, @no_input_ret, no_input_print.
    apply no_input_forecast_loop, no_input_ret. }
  rewrite H1, H2. clear H1 H2. unfold base_year_inputs.
  apply bind_no_input. intros ebit. apply no_input_lift.
Qed.

(** C9, as the code has it.  Let the base-year income record exist.  If
    it has an [EBIT] entry whose value is true in a condition (a number
    other than zero, a non-empty string), EBIT is [float] of that entry
    and the run calls [input] not at all.  If it has an [EBIT] entry whose
    value is false in a condition ([None], zero, the empty string) and a
    [date] entry, the run calls [input] exactly once, with a prompt that
    carries that date, and EBIT is [float] of the line read.  If it has no
    [EBIT] entry, the run raises [KeyError] at once: nothing is asked and
    nothing is printed.  In every completed reading of the base-year
    inputs the value that [read_ebit] returned is the EBIT the forecast
    starts from. *)
Theorem ebit_source
    (inc cf bal : statement) (inc0 : gmap string pyval) (period : Z)
    (d egr cgr pgr : Q) (w : world) :
  inc !! 0%nat = Some inc0 ->
  let run :=
    _enterprise_value_calculation float_of_str int_of_str inc cf bal period d
      egr cgr pgr w in
  (forall item,
     inc0 !! "EBIT"%string = Some item -> truthy item = true ->
     read_ebit float_of_str inc w = (w, py_float float_of_str item) /\
     input_calls (stdout (fst run)) = input_calls (stdout w) /\
     stdin (fst run) = stdin w) /\
  (forall item date,
     inc0 !! "EBIT"%string = Some item -> truthy item = false ->
     inc0 !! "date"%string = Some date ->
     stdout (fst (read_ebit float_of_str inc w))
     = stdout w ++ [Input (prompt_ebit date)] /\
     (forall line rest,
        stdin w = line :: rest ->
        read_ebit float_of_str inc w
        = (World (stdout w ++ [Input (prompt_ebit date)]) rest,
           py_float float_of_str (PStr line))) /\
     input_calls (stdout (fst run)) = S (input_calls (stdout w))) /\
  (inc0 !! "EBIT"%string = None -> run = (w, Raise (KeyError "EBIT"))) /\
  (forall b w1,
     base_year_inputs float_of_str inc cf bal w = (w1, Ok b) ->
     read_ebit float_of_str inc w = (w1, Ok (b_ebit b))).
Proof.
  intros Hinc run.
  destruct (run_reads_like_read_ebit inc cf bal period d egr cgr pgr w)
    as [Hin Hcalls].
  fold run in Hin, Hcalls.
  repeat apply conj.
  - intros item Hitem Ht.
    pose proof (read_ebit_present inc inc0 item w Hinc Hitem Ht) as Hr.
    rewrite Hr in Hin, Hcalls. auto.
  - intros item date Hitem Ht Hdate.
    pose proof (read_ebit_falsy inc inc0 item date w Hinc Hitem Ht Hdate) as Hr.
    rewrite Hcalls, Hr.
    repeat apply conj.
    + now destruct (stdin w).
    + intros line rest Hline. now rewrite Hline.
    + destruct (stdin w); simpl; apply input_calls_input.
  - intros Hitem. unfold run, _enterprise_value_calculation, forecast,
      base_year_inputs, bind.
    now rewrite (read_ebit_absent inc inc0 w Hinc Hitem).
  - intros b w1. apply base_year_ebit.
Qed.

End Dcf_m1Properties.

(** ** The statement-driven variant on the records of 2020 *)

Section Dcf_m1Examples.
Import Dcf_m1.
Local Open Scope Q_scope.

Lemma base_2020_read :
  base_year_inputs float_of_digits [income_2020] [cashflow_2020]
    [balance_2020; balance_2019] (World [] [])
  = (World [] [], Ok base_2020).
Proof. vm_compute. reflexivity. Qed.

(** A two-year forecast from the base year 2020 at a discount rate of 0.1:
    what the loop returns, and the second year. *)
Lemma forecast_loop_updates_witness :
  let st := fun k => spec_years 0.2 0.1 0.05 0.045 k (initial_state base_2020) in
  snd (forecast_loop int_of_digits [income_2020] 0.2 0.1 0.05 0.045
         (range 1 (Z.of_nat 2 + 1)) (initial_state base_2020) (World [] []))
  = Ok (st 2%nat) /\
  r_ebit (st 2%nat) = r_ebit (st 1%nat) * (1 + inject_Z 2 * 0.05) /\
  r_non_cash_charges (st 2%nat)
  = r_non_cash_charges (st 1%nat) * (1 + inject_Z 2 * 0.05) /\
  r_cwc (st 2%nat) = r_cwc (st 1%nat) * 0.7 /\
  r_cap_ex (st 2%nat) = r_cap_ex (st 1%nat) * (1 + inject_Z 2 * 0.045) /\
  r_flows (st 2%nat) !! 1%nat
  = Some (_ulFCF (r_ebit (st 2%nat)) 0.2 (r_non_cash_charges (st 2%nat))
            (r_cwc (st 2%nat)) (r_cap_ex (st 2%nat))
          / (1 + 0.1) ^ 2).
Proof.
  assert (Hd : ~ 1 + 0.1 == 0) by discriminate.
  destruct (forecast_loop_updates int_of_digits [income_2020] income_2020
              (PStr "2020-12-31") 2020 0.2 0.1 0.05 0.045
              eq_refl eq_refl eq_refl Hd base_2020 2)
    as (Hrun & _ & Hyears).
  split; [apply Hrun|]. apply (Hyears 1%nat). lia.
Defined.

(** The terminal value of a one-year forecast at a discount rate of 0.1 and
    a perpetual growth rate of 0.02. *)
Lemma terminal_value_of_run_witness :
  exists (w2 : world) (st : running) (pv_final : Q),
    forecast float_of_digits int_of_digits [income_2020] [cashflow_2020]
      [balance_2020; balance_2019] (Z.of_nat 1) 0.1 0.05 0.045 (World [] [])
    = (w2, Ok (base_2020, st)) /\
    length (r_flows st) = 1%nat /\
    last (r_flows st) = Some pv_final /\
    pv_final
    = _ulFCF (r_ebit st) (b_tax_rate base_2020) (r_non_cash_charges st)
        (r_cwc st) (r_cap_ex st) / (1 + 0.1) ^ Z.of_nat 1 /\
    terminal_value (r_flows st) 0.1 0.02
    = Ok (pv_final * (1 + 0.02) / (0.1 - 0.02)) /\
    _enterprise_value_calculation float_of_digits int_of_digits [income_2020]
      [cashflow_2020] [balance_2020; balance_2019] (Z.of_nat 1) 0.1 0.05 0.045
      0.02 (World [] [])
    = (w2,
       Ok (pv_final * (1 + 0.02) / (0.1 - 0.02) / (1 + 0.1) ^ (1 + Z.of_nat 1)
           + py_sum (r_flows st))).
Proof.
  apply (terminal_value_of_run float_of_digits int_of_digits [income_2020]
           [cashflow_2020] [balance_2020; balance_2019] income_2020
           (PStr "2020-12-31") 2020 1 0.1 0.05 0.045 0.02 base_2020
           (World [] []) (World [] []));
    [exact base_2020_read | reflexivity | reflexivity | reflexivity | lia
    | discriminate | discriminate].
Defined.

(** C2.  The terminal value is to be the final year's projected,
    undiscounted free cash flow times (1 + perpetual_growth_rate) divided
    by (discount_rate - perpetual_growth_rate).  The code does not compute
    it: in the one-year forecast above the final year's projected flow is
    96.275, so the terminal value is to be 96.275 x 1.02 / 0.08; line 117
    keeps the discounted flow 96.275 / 1.1 as the only entry of [flows],
    line 128 reads that entry as the final cash flow, and the terminal
    value and the enterprise value returned are not the ones of the
    claim. *)
Lemma terminal_value_from_discounted_flow :
  exists (b : base_year) (st : running) (w1 : world) (tv ev : Q),
    forecast float_of_digits int_of_digits [income_2020] [cashflow_2020]
      [balance_2020; balance_2019] 1 0.1 0.05 0.045 (World [] [])
    = (w1, Ok (b, st)) /\
    _ulFCF (r_ebit st) (b_tax_rate b) (r_non_cash_charges st) (r_cwc st)
      (r_cap_ex st) == 96.275 /\
    Forall2 Qeq (r_flows st) [96.275 / 1.1] /\
    terminal_value (r_flows st) 0.1 0.02 = Ok tv /\
    tv == 96.275 / 1.1 * 1.02 / 0.08 /\
    ~ tv == spec_terminal_value 96.275 0.02 0.1 /\
    _enterprise_value_calculation float_of_digits int_of_digits [income_2020]
      [cashflow_2020] [balance_2020; balance_2019] 1 0.1 0.05 0.045 0.02
      (World [] [])
    = (w1, Ok ev) /\
    ~ ev == spec_terminal_value 96.275 0.02 0.1 / (1 + 0.1) ^ (1 + 1)
            + py_sum (r_flows st).
Proof.
  do 5 eexists.
  split; [vm_compute; reflexivity|].
  split; [vm_compute; reflexivity|].
  split; [repeat constructor; vm_compute; reflexivity|].
  split; [vm_compute; reflexivity|].
  split; [vm_compute; reflexivity|].
  split; [vm_compute; discriminate|].
  split; [vm_compute; reflexivity|].
  vm_compute; discriminate.
Qed.

(** C1 fails on the code.  With a discount rate of 0.01, below the
    perpetual growth rate of 0.02, the run of the statement-driven variant
    raises nothing: the Gordon Growth division is carried out and
    [calculate_dcf] returns a negative enterprise value and share price. *)
Lemma low_discount_rate_returns :
  _discount_rate (dcf_2020 0.01) <= _perpetual_growth_rate (dcf_2020 0.01) /\
  exists (w' : world) (self' : DCF) (r : dcf_result),
    calculate_dcf float_of_digits int_of_digits (dcf_2020 0.01) (World [] [])
    = (w', Ok (self', r)) /\
    res_enterprise_value r == -19443679745 # 2060602 /\
    res_share_price r == -3905220765 # 4121204.
Proof.
  split; [vm_compute; discriminate|].
  do 3 eexists.
  split; [vm_compute; reflexivity|].
  split; vm_compute; reflexivity.
Qed.

(** Scenario B in the scalar variant; in the statement-driven variant a
    discount rate equal to the perpetual growth rate, and one below it. *)
Lemma growth_rate_check_witness :
  Gdcf.calc Gdcf.scenario_B_state (World [] [])
  = (World [] [], Raise (ValueError Gdcf.msg_wacc)) /\
  _enterprise_value_calculation float_of_digits int_of_digits [income_2020]
    [cashflow_2020] [balance_2020; balance_2019] 1 0.02 0.05 0.045 0.02
    (World [] [])
  = (fst (forecast float_of_digits int_of_digits [income_2020] [cashflow_2020]
            [balance_2020; balance_2019] 1 0.02 0.05 0.045 (World [] [])),
     Raise ZeroDivisionError) /\
  exists ev,
    _enterprise_value_calculation float_of_digits int_of_digits [income_2020]
      [cashflow_2020] [balance_2020; balance_2019] 1 0.01 0.05 0.045 0.02
      (World [] [])
    = (fst (forecast float_of_digits int_of_digits [income_2020]
              [cashflow_2020] [balance_2020; balance_2019] 1 0.01 0.05 0.045
              (World [] [])),
       Ok ev).
Proof.
  destruct (growth_rate_check float_of_digits int_of_digits)
    as (Hscalar & _ & Hequal & Hbelow).
  split.
  - apply (Hscalar Gdcf.scenario_B_state (World [] [])). discriminate.
  - split.
    + eapply Hequal; [reflexivity | vm_compute; reflexivity | discriminate].
    + eexists.
      eapply Hbelow;
        [reflexivity | vm_compute; reflexivity | vm_compute; reflexivity
        | discriminate].
Defined.

(** C9 fails on the code.  A base-year record without an [EBIT] entry makes
    the run raise [KeyError]: [input] is not called (nothing is written and
    the pending line is not read). *)
Lemma absent_ebit_is_not_asked_for :
  income_no_ebit !! "EBIT"%string = None /\
  _enterprise_value_calculation float_of_digits int_of_digits [income_no_ebit]
    [cashflow_2020] [balance_2020; balance_2019] 1 0.1 0.05 0.045 0.02
    (World [] ["100"%string])
  = (World [] ["100"%string], Raise (KeyError "EBIT")) /\
  input_calls
    (stdout
       (fst (_enterprise_value_calculation float_of_digits int_of_digits
               [income_no_ebit] [cashflow_2020] [balance_2020; balance_2019] 1
               0.1 0.05 0.045 0.02 (World [] ["100"%string]))))
  <> 1%nat.
Proof.
  split; [vm_compute; reflexivity|].
  split; [vm_compute; reflexivity|].
  vm_compute. discriminate.
Qed.

(** An [EBIT] entry of 100, an [EBIT] entry of [None] with the line [100]
    waiting on the input, and no [EBIT] entry. *)
Lemma ebit_source_witness :
  let run inc :=
    _enterprise_value_calculation float_of_digits int_of_digits [inc]
      [cashflow_2020] [balance_2020; balance_2019] 1 0.1 0.05 0.045 0.02
      (World [] ["100"%string]) in
  input_calls (stdout (fst (run income_2020))) = 0%nat /\
  input_calls (stdout (fst (run (income_ebit PNone)))) = 1%nat /\
  read_ebit float_of_digits [income_ebit PNone] (World [] ["100"%string])
  = (World [Input (prompt_ebit (PStr "2020-12-31"))] [], Ok 100) /\
  run income_no_ebit = (World [] ["100"%string], Raise (KeyError "EBIT")) /\
  read_ebit float_of_digits [income_2020] (World [] [])
  = (World [] [], Ok (b_ebit base_2020)).
Proof.
  intros run.
  pose proof (fun inc H =>
    ebit_source float_of_digits int_of_digits [inc] [cashflow_2020]
      [balance_2020; balance_2019] inc 1 0.1 0.05 0.045 0.02
      (World [] ["100"%string]) H) as Hsrc.
  destruct (Hsrc income_2020 eq_refl) as (Hpresent & _).
  destruct (Hsrc (income_ebit PNone) eq_refl) as (_ & Hfalsy & _).
  destruct (Hsrc income_no_ebit eq_refl) as (_ & _ & Habsent & _).
  split.
  { apply (Hpresent (PFloat 100)); [vm_compute; reflexivity | reflexivity]. }
  destruct (Hfalsy PNone (PStr "2020-12-31")) as (_ & Hline & Hcalls);
    [vm_compute; reflexivity | reflexivity | vm_compute; reflexivity |].
  split; [exact Hcalls|].
  split; [exact (Hline "100"%string [] eq_refl)|].
  split; [apply Habsent; vm_compute; reflexivity|].
  destruct (ebit_source float_of_digits int_of_digits [income_2020]
              [cashflow_2020] [balance_2020; balance_2019] income_2020 1 0.1
              0.05 0.045 0.02 (World [] []) eq_refl) as (_ & _ & _ & Hused).
  apply (Hused base_2020 (World [] [])). exact base_2020_read.
Defined.

End Dcf_m1Examples.

(** * Further properties of the two variants *)

(** ** The scalar variant: setters, getters and chains of calls *)

Section GdcfChains.
Import Gdcf.
Local Open Scope Q_scope.

Lemma call_setter_invariant (s : setter) (v : pyval) (self d : DCF) :
  setter_invariant self -> call_setter s v self = Ok d -> setter_invariant d.
Proof.
  intros Hinv Hcall. apply (setters_keep_invariant v self d Hinv).
  destruct s; simpl in Hcall; tauto.
Qed.

Lemma chain_invariant (calls : list (setter * pyval)) :
  forall self d,
    setter_invariant self -> chain calls self = Ok d -> setter_invariant d.
Proof.
  induction calls as [|[s v] calls IH]; intros self d Hinv Hch; simpl in Hch.
  - now inversion Hch; subst.
  - destruct (call_setter s v self) as [d1|e] eqn:Hc; [|discriminate].
    simpl in Hch. apply (IH d1 d); [|assumption].
    now apply (call_setter_invariant s v self).
Qed.

Lemma calc_return_zero (self : DCF) (w : world) :
  snd (calc self w) = Ok Return0 -> _shares_outstanding self <= 0.
Proof.
  unfold calc.
  destruct (Qle_bool (_wacc self) (_terminal_growth_rate self));
    [discriminate|].
  destruct (_growth_rates self) as [|g rs]; [discriminate|].
  unfold bind at 1. rewrite warning_step. unfold bind, lift, ret.
  destruct (discount_fcfs _ _); [|discriminate].
  destruct (py_last _); [|discriminate].
  destruct (py_div _ _); [|discriminate].
  destruct (py_div _ _); [|discriminate].
  destruct (Qle_bool (_shares_outstanding self) 0) eqn:Hs.
  - intros _. now apply Qle_bool_iff.
  - destruct (py_div _ _); discriminate.
Qed.

(** X1.  The [return 0] of line 126 cannot be reached through the setters:
    whatever chain of setter calls is made on a new object, if the chain
    goes through, no run of [calc] on the object returns [0].  (The test of
    line 125 is the one [set_shares_outstanding] has already applied to the
    value, and a new object holds a share count of 1.) *)
Theorem setters_never_lead_to_return_zero
    (calls : list (setter * pyval)) (d : DCF) (w : world) :
  chain calls __init__ = Ok d ->
  snd (calc d w) <> Ok Return0.
Proof.
  intros Hch Hzero.
  pose proof (chain_invariant calls __init__ d init_invariant Hch)
    as (_ & _ & _ & _ & _ & Hs).
  apply calc_return_zero in Hzero. lra.
Qed.

Lemma setters_never_lead_to_return_zero_witness :
  snd (calc scenario_A_state (World [] [])) <> Ok Return0.
Proof.
  apply (setters_never_lead_to_return_zero
           [(SetCurrentFcf, PInt 100);
            (SetGrowthRates,
             PList [PFloat 0.15; PFloat 0.10; PFloat 0.08; PFloat 0.05;
                    PFloat 0.03]);
            (SetTerminalGrowthRate, PFloat 0.02);
            (SetWacc, PFloat 0.09);
            (SetCashAndEquivalents, PInt 50);
            (SetTotalDebt, PInt 20);
            (SetSharesOutstanding, PInt 100)]
           scenario_A_state (World [] [])).
  reflexivity.
Defined.

Ltac crush_setters :=
  repeat match goal with
         | |- context [match ?x with _ => _ end] =>
             lazymatch x with
             | context [match _ with _ => _ end] => fail
             | _ => destruct x eqn:?; simpl
             end
         end.

(** X2.  Two calls of different setters can be chained in either order:
    the chain goes through in one order exactly when it does in the other,
    and it ends in the same object. *)
Theorem setters_commute (s1 s2 : setter) (v1 v2 : pyval) (self d : DCF) :
  s1 <> s2 ->
  chain [(s1, v1); (s2, v2)] self = Ok d <->
  chain [(s2, v2); (s1, v1)] self = Ok d.
Proof.
  intros Hne.
  destruct s1, s2; try contradiction; clear Hne; simpl;
    unfold set_current_fcf, set_growth_rates, set_terminal_growth_rate,
      set_wacc, set_cash_and_equivalents, set_total_debt,
      set_shares_outstanding;
    destruct v1, v2; simpl;
    crush_setters; try reflexivity; try (split; intro; discriminate).
Qed.

(** X3.  After a setter has accepted its argument, the getter of that field
    returns the numbers of the argument, and every other getter returns what
    it returned before the call. *)
Theorem setter_then_getter (s : setter) (v : pyval) (self d : DCF) :
  call_setter s v self = Ok d ->
  numbers_of s v = Some (getter s d) /\
  forall s', s' <> s -> getter s' d = getter s' self.
Proof.
  intros Hcall.
  destruct s; simpl in Hcall;
    unfold set_current_fcf, set_growth_rates, set_terminal_growth_rate,
      set_wacc, set_cash_and_equivalents, set_total_debt,
      set_shares_outstanding in Hcall;
    destruct v; simpl in Hcall; try discriminate;
    repeat match type of Hcall with
           | context [match ?x with _ => _ end] =>
               destruct x eqn:?; simpl in Hcall; try discriminate
           end;
    inversion Hcall; subst; clear Hcall;
    (split; [reflexivity || (simpl; congruence) |
             intros s' Hne; destruct s'; try contradiction; reflexivity]).
Qed.

Lemma setter_then_getter_witness :
  numbers_of SetWacc (PFloat 0.09) = Some (getter SetWacc (mkDCF 0.0 [] 0.02 0.09 0.0 0.0 1.0)) /\
  forall s', s' <> SetWacc ->
    getter s' (mkDCF 0.0 [] 0.02 0.09 0.0 0.0 1.0) = getter s' __init__.
Proof.
  apply (setter_then_getter SetWacc (PFloat 0.09) __init__). reflexivity.
Defined.

(** X4.  An accepted call of a setter leaves no trace once the same setter
    is called again: the second call ends as it would have on the object
    before the first (same object, or same refusal). *)
Theorem last_setting_wins (s : setter) (v1 v2 : pyval) (self d1 : DCF) :
  call_setter s v1 self = Ok d1 ->
  call_setter s v2 d1 = call_setter s v2 self.
Proof.
  intros Hcall.
  destruct s; simpl in *;
    unfold set_current_fcf, set_growth_rates, set_terminal_growth_rate,
      set_wacc, set_cash_and_equivalents, set_total_debt,
      set_shares_outstanding in *;
    destruct v1; simpl in Hcall; try discriminate;
    repeat match type of Hcall with
           | context [match ?x with _ => _ end] =>
               destruct x eqn:?; simpl in Hcall; try discriminate
           end;
    inversion Hcall; subst; clear Hcall; reflexivity.
Qed.

End GdcfChains.

(** ** The scalar variant: what [calc] does and returns *)

Section GdcfOutcomes.
Import Gdcf.
Local Open Scope Q_scope.

Lemma calc_world_eq (self : DCF) (w : world) :
  fst (calc self w)
  = if Qle_bool (_wacc self) (_terminal_growth_rate self) then w
    else match _growth_rates self with
         | [] => w
         | _ :: _ => warned self w
         end.
Proof.
  unfold calc.
  destruct (Qle_bool (_wacc self) (_terminal_growth_rate self));
    [reflexivity|].
  destruct (_growth_rates self) as [|g rs]; [reflexivity|].
  unfold bind at 1. rewrite warning_step.
  unfold bind, lift, ret.
  repeat match goal with
         | |- context [match ?x with _ => _ end] =>
             lazymatch x with
             | context [match _ with _ => _ end] => fail
             | _ => destruct x; simpl
             end
         end; reflexivity.
Qed.

Lemma calc_world (self : DCF) (w : world) :
  fst (calc self w) = w \/
  (fst (calc self w) = emit (Print [Lit msg_warning]) w /\
   _current_fcf self <= 0 /\
   _terminal_growth_rate self < _wacc self /\
   _growth_rates self <> []).
Proof.
  rewrite calc_world_eq.
  destruct (Qle_bool (_wacc self) (_terminal_growth_rate self)) eqn:Hc;
    [auto|].
  apply Qle_bool_false in Hc.
  destruct (_growth_rates self) as [|g rs] eqn:Hrs; [auto|].
  unfold warned.
  destruct (Qle_bool (_current_fcf self) 0) eqn:Hf; [|auto].
  apply Qle_bool_iff in Hf. right.
  split; [reflexivity|]. split; [assumption|]. split; [assumption|].
  discriminate.
Qed.

(** X6.  [calc] never reads input, whatever it returns or raises; it
    prints nothing, or the one warning line, and the warning only when the
    current FCF is not positive and both checks at its start have passed. *)
Theorem calc_prints_at_most_the_warning (self : DCF) (w : world) :
  stdin (fst (calc self w)) = stdin w /\
  input_calls (stdout (fst (calc self w))) = input_calls (stdout w) /\
  (stdout (fst (calc self w)) = stdout w \/
   (stdout (fst (calc self w)) = stdout w ++ [Print [Lit msg_warning]] /\
    _current_fcf self <= 0 /\
    _terminal_growth_rate self < _wacc self /\
    _growth_rates self <> [])).
Proof.
  destruct (calc_world self w) as [Hw|(Hw & Hrest)]; rewrite Hw.
  - auto.
  - split; [reflexivity|]. split; [apply input_calls_print|].
    right. split; [reflexivity|assumption].
Qed.

Lemma div_positive (a b : Q) : 0 < a -> 0 < b -> 0 < a / b.
Proof.
  intros Ha Hb. apply Qlt_shift_div_l; [assumption|]. lra.
Qed.

Lemma div_of_zero (a b : Q) : a == 0 -> a / b == 0.
Proof. intros Ha. unfold Qdiv. rewrite Ha. ring. Qed.

Lemma spec_projected_zero (rs : list Q) :
  forall x, x == 0 -> Forall (fun f => f == 0) (spec_projected x rs).
Proof.
  induction rs as [|g rs IH]; intros x Hx; simpl; constructor.
  - rewrite Hx. ring.
  - apply IH. rewrite Hx. ring.
Qed.

Lemma spec_projected_pos (rs : list Q) :
  forall x, 0 < x -> Forall (fun g => -1 < g) rs ->
    Forall (fun f => 0 < f) (spec_projected x rs).
Proof.
  induction rs as [|g rs IH]; intros x Hx Hrs; simpl; constructor;
    inversion Hrs; subst.
  - apply Qmult_lt_0_compat; lra.
  - apply IH; [|assumption]. apply Qmult_lt_0_compat; lra.
Qed.

Lemma Forall_imap_pointwise {A B} (P : A -> Prop) (R : B -> Prop) (l : list A) :
  forall f : nat -> A -> B,
    (forall i x, P x -> R (f i x)) -> Forall P l -> Forall R (imap f l).
Proof.
  induction l as [|x l IH]; intros f Hf Hl; simpl; constructor;
    inversion Hl; subst.
  - now apply Hf.
  - apply IH; [|assumption]. intros i y. apply Hf.
Qed.

Lemma sum_zero (l : list Q) :
  forall a, a == 0 -> Forall (fun f => f == 0) l -> fold_left Qplus l a == 0.
Proof.
  induction l as [|x l IH]; intros a Ha Hl; simpl; [assumption|].
  inversion Hl; subst. apply IH; [|assumption]. lra.
Qed.

Lemma sum_nonneg (l : list Q) :
  forall a, 0 <= a -> Forall (fun f => 0 < f) l -> 0 <= fold_left Qplus l a.
Proof.
  induction l as [|x l IH]; intros a Ha Hl; simpl; [assumption|].
  inversion Hl; subst. apply IH; [|assumption]. lra.
Qed.

Lemma last_Forall {A} (P : A -> Prop) (l : list A) (x : A) :
  Forall P l -> last l = Some x -> P x.
Proof.
  intros Hl Hx. rewrite Forall_forall in Hl. apply Hl.
  rewrite last_lookup in Hx. now apply list_elem_of_lookup_2 in Hx.
Qed.

(** X7.  With a current FCF of zero and parameters that pass the checks,
    [calc] prints the warning and returns a dictionary in which every
    projected flow, the discounted total, the terminal value and the
    enterprise value are zero: the equity value is cash minus debt, and the
    value per share is that difference divided by the share count. *)
Theorem calc_zero_fcf (self : DCF) (w : world) :
  _current_fcf self == 0 ->
  _terminal_growth_rate self < _wacc self ->
  _growth_rates self <> [] ->
  0 < _wacc self ->
  0 < _shares_outstanding self ->
  exists v : valuation,
    calc self w = (emit (Print [Lit msg_warning]) w, Ok (ReturnDict v)) /\
    Forall (fun f => f == 0) (projected_fcfs v) /\
    present_value_of_fcfs v == 0 /\
    terminal_value v == 0 /\
    enterprise_value v == 0 /\
    equity_value v == _cash_and_equivalents self - _total_debt self /\
    intrinsic_value_per_share v
    == (_cash_and_equivalents self - _total_debt self)
       / _shares_outstanding self.
Proof.
  intros Hf Hg Hne Hw Hs. exists (spec_valuation self).
  assert (Hflows : Forall (fun f => f == 0)
                     (spec_projected (_current_fcf self) (_growth_rates self)))
    by now apply spec_projected_zero.
  assert (Hpv : spec_sum (spec_present_values (_wacc self)
                  (spec_projected (_current_fcf self) (_growth_rates self)))
                == 0).
  { apply sum_zero; [reflexivity|].
    apply (Forall_imap_pointwise (fun f => f == 0)); [|assumption].
    intros i x Hx. unfold spec_present_value. now apply div_of_zero. }
  assert (Htv : spec_terminal_value
                  (default 0 (last (spec_projected (_current_fcf self)
                                      (_growth_rates self))))
                  (_terminal_growth_rate self) (_wacc self) == 0).
  { destruct (spec_projected_nonempty (_current_fcf self) _ Hne) as [y Hy].
    rewrite Hy. simpl. unfold spec_terminal_value. apply div_of_zero.
    rewrite (last_Forall _ _ _ Hflows Hy). ring. }
  assert (Hev : spec_sum (spec_present_values (_wacc self)
                  (spec_projected (_current_fcf self) (_growth_rates self)))
                + spec_pv_terminal
                    (spec_terminal_value
                       (default 0 (last (spec_projected (_current_fcf self)
                                           (_growth_rates self))))
                       (_terminal_growth_rate self) (_wacc self))
                    (_wacc self) (length (_growth_rates self)) == 0).
  { rewrite Hpv. unfold spec_pv_terminal. rewrite (div_of_zero _ _ Htv). ring. }
  split.
  { rewrite calc_valid by assumption. unfold warned.
    assert (Hle : _current_fcf self <= 0) by lra.
    now rewrite (proj2 (Qle_bool_iff _ _) Hle). }
  simpl. repeat apply conj; try assumption.
  - rewrite Hev. ring.
  - unfold Qdiv. rewrite Hev. ring.
Qed.

(** X8.  With a positive current FCF, growth rates all above -1, a positive
    WACC above a terminal growth rate that is itself above -1, and a
    positive share count, [calc] prints nothing and returns a dictionary
    whose projected flows, terminal value and enterprise value are
    positive; when debt does not exceed cash the value per share is
    positive too. *)
Theorem calc_positive (self : DCF) (w : world) :
  0 < _current_fcf self ->
  Forall (fun g => -1 < g) (_growth_rates self) ->
  _growth_rates self <> [] ->
  0 < _wacc self ->
  _terminal_growth_rate self < _wacc self ->
  -1 < _terminal_growth_rate self ->
  0 < _shares_outstanding self ->
  exists v : valuation,
    calc self w = (w, Ok (ReturnDict v)) /\
    Forall (fun f => 0 < f) (projected_fcfs v) /\
    0 <= present_value_of_fcfs v /\
    0 < terminal_value v /\
    0 < enterprise_value v /\
    (_total_debt self <= _cash_and_equivalents self ->
     0 < intrinsic_value_per_share v).
Proof.
  intros Hf Hrs Hne Hw Hg Htg Hs. exists (spec_valuation self).
  assert (Hflows : Forall (fun f => 0 < f)
                     (spec_projected (_current_fcf self) (_growth_rates self)))
    by now apply spec_projected_pos.
  assert (Hbase : forall n : Z, 0 < (1 + _wacc self) ^ n)
    by (intros n; apply Qpower_0_lt; lra).
  assert (Hpv : 0 <= spec_sum (spec_present_values (_wacc self)
                  (spec_projected (_current_fcf self) (_growth_rates self)))).
  { apply sum_nonneg; [lra|].
    apply (Forall_imap_pointwise (fun f => 0 < f)); [|assumption].
    intros i x Hx. unfold spec_present_value. now apply div_positive. }
  assert (Htv : 0 < spec_terminal_value
                  (default 0 (last (spec_projected (_current_fcf self)
                                      (_growth_rates self))))
                  (_terminal_growth_rate self) (_wacc self)).
  { destruct (spec_projected_nonempty (_current_fcf self) _ Hne) as [y Hy].
    rewrite Hy. simpl. unfold spec_terminal_value.
    pose proof (last_Forall _ _ _ Hflows Hy) as Hy0. simpl in Hy0.
    apply div_positive; [|lra]. apply Qmult_lt_0_compat; lra. }
  assert (Hpvtv : 0 < spec_pv_terminal
                    (spec_terminal_value
                       (default 0 (last (spec_projected (_current_fcf self)
                                           (_growth_rates self))))
                       (_terminal_growth_rate self) (_wacc self))
                    (_wacc self) (length (_growth_rates self))).
  { unfold spec_pv_terminal. now apply div_positive. }
  split.
  { rewrite calc_valid by assumption. unfold warned.
    now rewrite (proj2 (Qle_bool_false _ _) Hf). }
  simpl. repeat apply conj; try assumption.
  - lra.
  - intros Hd. apply div_positive; [|assumption]. lra.
Qed.

End GdcfOutcomes.

(** ** The statement-driven variant: failures, effects and closed forms *)

Section Dcf_m1Edges.
Import Dcf_m1.
Local Open Scope Q_scope.

Variable float_of_str : string -> option Q.
Variable int_of_str : string -> option Z.

Lemma range_empty (period : Z) : (period <= 0)%Z -> range 1 (period + 1) = [].
Proof.
  intros Hp. unfold range.
  now replace (Z.to_nat (period + 1 - 1)) with 0%nat by lia.
Qed.

Lemma range_first (period : Z) :
  (1 <= period)%Z -> exists rest, range 1 (period + 1) = 1%Z :: rest.
Proof.
  intros Hp. unfold range.
  destruct (Z.to_nat (period + 1 - 1)) as [|k] eqn:Hk; [lia|].
  simpl. eauto.
Qed.

Lemma forecast_loop_raised inc tax d egr cgr (years : list Z) :
  forall (acc : M running) (w w' : world) (e : exn),
    acc w = (w', Raise e) ->
    fold_left
      (fun acc yr =>
         bind acc (fun st => forecast_year int_of_str inc tax d egr cgr st yr))
      years acc w
    = (w', Raise e).
Proof.
  induction years as [|yr years IH]; intros acc w w' e Hacc; simpl;
    [assumption|].
  apply IH. unfold bind. now rewrite Hacc.
Qed.

Lemma forecast_heading
    (inc cf bal : statement) (inc0 : gmap string pyval) (date : pyval)
    (period : Z) (d egr cgr : Q) (b : base_year) (w w1 : world) :
  base_year_inputs float_of_str inc cf bal w = (w1, Ok b) ->
  inc !! 0%nat = Some inc0 ->
  inc0 !! "date"%string = Some date ->
  forecast float_of_str int_of_str inc cf bal period d egr cgr w
  = bind
      (forecast_loop int_of_str inc (b_tax_rate b) d egr cgr
         (range 1 (period + 1)) (initial_state b))
      (fun st => ret (b, st))
      (emit (Print (heading period date)) w1).
Proof.
  intros Hb Hinc Hdate. unfold forecast.
  unfold bind at 1. rewrite Hb.
  unfold bind at 1, lift at 1, py_index. rewrite Hinc.
  unfold bind at 1, lift at 1, py_getitem. rewrite Hdate.
  reflexivity.
Qed.

Lemma enterprise_value_of_failed_forecast
    (inc cf bal : statement) (period : Z) (d egr cgr pgr : Q)
    (w w1 : world) (e : exn) :
  forecast float_of_str int_of_str inc cf bal period d egr cgr w
  = (w1, Raise e) ->
  _enterprise_value_calculation float_of_str int_of_str inc cf bal period d
    egr cgr pgr w
  = (w1, Raise e).
Proof.
  intros Hf. unfold _enterprise_value_calculation, bind. now rewrite Hf.
Qed.

(** X9.  With a forecast period of zero or less the loop body never runs:
    once the base-year inputs are read, the run prints the heading, no row,
    and ends in the IndexError of [flows[-1]] on the empty list. *)
Theorem nonpositive_period_fails
    (inc cf bal : statement) (inc0 : gmap string pyval) (date : pyval)
    (period : Z) (d egr cgr pgr : Q) (b : base_year) (w w1 : world) :
  base_year_inputs float_of_str inc cf bal w = (w1, Ok b) ->
  inc !! 0%nat = Some inc0 ->
  inc0 !! "date"%string = Some date ->
  (period <= 0)%Z ->
  _enterprise_value_calculation float_of_str int_of_str inc cf bal period d
    egr cgr pgr w
  = (emit (Print (heading period date)) w1, Raise IndexError).
Proof.
  intros Hb Hinc Hdate Hp.
  assert (Hf : forecast float_of_str int_of_str inc cf bal period d egr cgr w
               = (emit (Print (heading period date)) w1,
                  Ok (b, initial_state b))).
  { rewrite (forecast_heading inc cf bal inc0 date period d egr cgr b w w1)
      by assumption.
    now rewrite range_empty. }
  rewrite (enterprise_value_of_forecast _ _ _ _ _ _ _ _ _ _ _ _ _ _ Hf).
  reflexivity.
Qed.

(** X10.  With a forecast period of at least one year, two conditions stop
    the run in the first year, after the heading and before any row: a
    discount rate of -1 (ZeroDivisionError, the discount factor is zero),
    and otherwise a base-year date whose first four characters [int] does
    not accept (the error of that conversion), although the date is only
    printed. *)
Theorem first_year_failures
    (inc cf bal : statement) (inc0 : gmap string pyval) (date : pyval)
    (period : Z) (d egr cgr pgr : Q) (b : base_year) (w w1 : world) :
  base_year_inputs float_of_str inc cf bal w = (w1, Ok b) ->
  inc !! 0%nat = Some inc0 ->
  inc0 !! "date"%string = Some date ->
  (1 <= period)%Z ->
  (1 + d == 0 ->
   _enterprise_value_calculation float_of_str int_of_str inc cf bal period d
     egr cgr pgr w
   = (emit (Print (heading period date)) w1, Raise ZeroDivisionError)) /\
  (forall e,
     ~ 1 + d == 0 ->
     year_of int_of_str date = Raise e ->
     _enterprise_value_calculation float_of_str int_of_str inc cf bal period d
       egr cgr pgr w
     = (emit (Print (heading period date)) w1, Raise e)).
Proof.
  intros Hb Hinc Hdate Hp.
  destruct (range_first period Hp) as [rest Hrange].
  pose proof (forecast_heading inc cf bal inc0 date period d egr cgr b w w1
                Hb Hinc Hdate) as Hhead.
  split.
  - intros Hd. apply enterprise_value_of_failed_forecast.
    rewrite Hhead, Hrange. unfold bind at 1, forecast_loop. simpl fold_left.
    rewrite (forecast_loop_raised _ _ _ _ _ rest _ _
               (emit (Print (heading period date)) w1) ZeroDivisionError);
      [reflexivity|].
    unfold forecast_year, bind, lift, ret.
    rewrite py_div_zero; [reflexivity|]. unfold py_pow. simpl. exact Hd.
  - intros e Hd Hyear. apply enterprise_value_of_failed_forecast.
    rewrite Hhead, Hrange. unfold bind at 1, forecast_loop. simpl fold_left.
    rewrite (forecast_loop_raised _ _ _ _ _ rest _ _
               (emit (Print (heading period date)) w1) e);
      [reflexivity|].
    unfold forecast_year, bind, lift, ret.
    rewrite py_div_ok by now apply py_pow_nonzero.
    unfold py_index. rewrite Hinc. unfold py_getitem. rewrite Hdate, Hyear.
    reflexivity.
Qed.

(** X11.  [_equity_value_calculation] on a record that holds debt and cash
    as numbers and a share count that [float] converts: with a non-zero
    share count it returns enterprise value minus debt plus cash, and that
    amount divided by the share count; with a share count of zero it ends
    in a ZeroDivisionError.  Debt or cash held as anything but a number
    (a string, even one [float] would convert) ends in a TypeError; a
    record without a debt entry ends in a KeyError. *)
Theorem equity_value_cases (enterprise_value : Q) (stmt : gmap string pyval) :
  (forall debt cash shares d c s,
     stmt !! "+ Total Debt"%string = Some debt -> as_number debt = Some d ->
     stmt !! "- Cash & Cash Equivalents"%string = Some cash ->
     as_number cash = Some c ->
     stmt !! "Number of Shares"%string = Some shares ->
     py_float float_of_str shares = Ok s ->
     (~ s == 0 ->
      _equity_value_calculation float_of_str enterprise_value stmt
      = Ok (enterprise_value - d + c, (enterprise_value - d + c) / s)) /\
     (s == 0 ->
      _equity_value_calculation float_of_str enterprise_value stmt
      = Raise ZeroDivisionError)) /\
  (forall debt,
     stmt !! "+ Total Debt"%string = Some debt -> as_number debt = None ->
     _equity_value_calculation float_of_str enterprise_value stmt
     = Raise TypeError) /\
  (forall debt d cash,
     stmt !! "+ Total Debt"%string = Some debt -> as_number debt = Some d ->
     stmt !! "- Cash & Cash Equivalents"%string = Some cash ->
     as_number cash = None ->
     _equity_value_calculation float_of_str enterprise_value stmt
     = Raise TypeError) /\
  (stmt !! "+ Total Debt"%string = None ->
   _equity_value_calculation float_of_str enterprise_value stmt
   = Raise (KeyError "+ Total Debt")).
Proof.
  unfold _equity_value_calculation, py_getitem, py_operand.
  repeat apply conj.
  - intros debt cash shares d c s H1 H2 H3 H4 H5 H6.
    rewrite H1. cbn [res_bind]. rewrite H2. cbn [res_bind].
    rewrite H3. cbn [res_bind]. rewrite H4. cbn [res_bind].
    rewrite H5. cbn [res_bind]. rewrite H6. cbn [res_bind].
    split; intros Hs.
    + now rewrite py_div_ok.
    + now rewrite py_div_zero.
  - intros debt H1 H2. rewrite H1. cbn [res_bind]. now rewrite H2.
  - intros debt d cash H1 H2 H3 H4.
    rewrite H1. cbn [res_bind]. rewrite H2. cbn [res_bind].
    rewrite H3. cbn [res_bind]. now rewrite H4.
  - intros H1. now rewrite H1.
Qed.

(** X12.  When [calculate_dcf] returns, the enterprise value of its
    dictionary is the result of [_enterprise_value_calculation] on the
    fields of the object, the equity value and share price are those of
    [_equity_value_calculation] on it, the date is the date of the
    base-year income record; the object keeps its inputs and holds the four
    results; and calling [calculate_dcf] on the object again behaves as the
    first call did. *)
Theorem calculate_dcf_result
    (self self' : DCF) (r : dcf_result) (w w' : world) :
  calculate_dcf float_of_str int_of_str self w = (w', Ok (self', r)) ->
  (exists w1,
     _enterprise_value_calculation float_of_str int_of_str
       (_income_statement self) (_cashflow_statement self)
       (_balance_statement self) (_forecast_period self) (_discount_rate self)
       (_earnings_growth_rate self) (_cap_ex_growth_rate self)
       (_perpetual_growth_rate self) w
     = (w1, Ok (res_enterprise_value r))) /\
  _equity_value_calculation float_of_str (res_enterprise_value r)
    (_ev_statement self)
  = Ok (res_equity_value r, res_share_price r) /\
  (exists inc0,
     _income_statement self !! 0%nat = Some inc0 /\
     inc0 !! "date"%string = Some (res_date r)) /\
  self' = mkDCF (_ticker self) (_ev_statement self) (_income_statement self)
            (_balance_statement self) (_cashflow_statement self)
            (_discount_rate self) (_forecast_period self)
            (_earnings_growth_rate self) (_cap_ex_growth_rate self)
            (_perpetual_growth_rate self)
            (Some (res_enterprise_value r)) (Some (res_equity_value r))
            (Some (res_share_price r)) (Some (res_date r)) /\
  (forall w2,
     calculate_dcf float_of_str int_of_str self' w2
     = calculate_dcf float_of_str int_of_str self w2).
Proof.
  unfold calculate_dcf. intros H.
  unfold bind at 1 in H.
  destruct (_enterprise_value_calculation _ _ _ _ _ _ _ _ _ _ w)
    as [w1 [ev|e]] eqn:Hev; [|discriminate].
  unfold bind at 1, lift at 1 in H.
  destruct (_equity_value_calculation float_of_str ev (_ev_statement self))
    as [[eq sp]|e] eqn:Heq; [|discriminate].
  unfold bind at 1, lift at 1, py_index in H.
  destruct (_income_statement self !! 0%nat) as [inc0|] eqn:Hinc;
    [|discriminate].
  unfold bind at 1, lift at 1, py_getitem in H.
  destruct (inc0 !! "date"%string) as [date|] eqn:Hdate; [|discriminate].
  unfold bind, print, ret in H. simpl in H.
  inversion H; subst; clear H. simpl.
  split; [eauto|]. split; [assumption|]. split; [eauto|].
  split; [reflexivity|]. intros w2. reflexivity.
Qed.

Lemma read_ebit_calls (inc : statement) (w : world) :
  let w1 := fst (read_ebit float_of_str inc w) in
  (input_calls (stdout w1) <= S (input_calls (stdout w)))%nat /\
  (length (stdin w) <= S (length (stdin w1)))%nat.
Proof.
  cbv zeta. unfold read_ebit, bind, lift, py_index, py_getitem, input.
  destruct (inc !! 0%nat) as [inc0|]; simpl; [|lia].
  destruct (inc0 !! "EBIT"%string) as [item|]; simpl; [|lia].
  destruct (truthy item); simpl; [lia|].
  destruct (inc0 !! "date"%string) as [date|]; simpl; [|lia].
  destruct (stdin w) as [|line rest]; simpl;
    rewrite input_calls_input; lia.
Qed.

(** X13.  Whatever the statements hold and however the run ends,
    [calculate_dcf] calls [input] at most once and reads at most one
    line. *)
Theorem calculate_dcf_asks_at_most_once (self : DCF) (w : world) :
  let w' := fst (calculate_dcf float_of_str int_of_str self w) in
  (input_calls (stdout w') <= S (input_calls (stdout w)))%nat /\
  (length (stdin w) <= S (length (stdin w')))%nat.
Proof.
  cbv zeta. unfold calculate_dcf.
  match goal with
  | |- context [bind ?m ?k w] =>
      destruct (bind_no_input m k w) as [H1 H2]
  end.
  { intros ev.
    repeat (apply no_input_bind; [|intros ?]);
      auto using @no_input_lift, @no_input_ret, no_input_print. }
  rewrite H1, H2. clear H1 H2.
  destruct (run_reads_like_read_ebit float_of_str int_of_str
              (_income_statement self) (_cashflow_statement self)
              (_balance_statement self) (_forecast_period self)
              (_discount_rate self) (_earnings_growth_rate self)
              (_cap_ex_growth_rate self) (_perpetual_growth_rate self) w)
    as [H1 H2].
  rewrite H1, H2. apply read_ebit_calls.
Qed.

Lemma forecast_loop_rows
    (inc : statement) (inc0 : gmap string pyval) (date : pyval) (year : Z)
    (tax d egr cgr : Q) (st0 : running) (n : nat) :
  inc !! 0%nat = Some inc0 ->
  inc0 !! "date"%string = Some date ->
  year_of int_of_str date = Ok year ->
  ~ 1 + d == 0 ->
  forall w, exists rows,
    forecast_loop int_of_str inc tax d egr cgr (range 1 (Z.of_nat n + 1)) st0 w
    = (World (stdout w ++ map Print rows) (stdin w),
       Ok (spec_years tax d egr cgr n st0)) /\
    length rows = n.
Proof.
  intros Hinc Hdate Hyear Hd. induction n as [|n IH]; intros w.
  - exists []. rewrite range_nil. simpl. rewrite app_nil_r.
    split; [now destruct w|reflexivity].
  - destruct (IH w) as (rows & Hrun & Hlen).
    destruct (forecast_year_run int_of_str inc inc0 date year tax d egr cgr
                Hinc Hdate Hyear Hd (spec_years tax d egr cgr n st0)
                (Z.of_nat (S n)) (World (stdout w ++ map Print rows) (stdin w)))
      as [line Hyr].
    exists (rows ++ [line]).
    unfold forecast_loop in *. rewrite range_succ, fold_left_app. simpl.
    unfold bind at 1. rewrite Hrun, Hyr. unfold emit. simpl.
    rewrite map_app, app_assoc, length_app. simpl.
    split; [reflexivity|lia].
Qed.

Lemma spec_years_cwc (tax d egr cgr : Q) (st0 : running) (n : nat) :
  r_cwc (spec_years tax d egr cgr n st0) == r_cwc st0 * 0.7 ^ Z.of_nat n.
Proof.
  induction n as [|n IH].
  - simpl. ring.
  - rewrite Nat2Z.inj_succ, <- Z.add_1_r, Qpower_plus by discriminate.
    simpl spec_years. simpl r_cwc. rewrite IH. simpl (0.7 ^ 1). ring.
Qed.

Lemma spec_years_constant (tax d egr cgr : Q) (st0 : running) (n : nat) :
  (egr == 0 ->
   r_ebit (spec_years tax d egr cgr n st0) == r_ebit st0 /\
   r_non_cash_charges (spec_years tax d egr cgr n st0)
   == r_non_cash_charges st0) /\
  (cgr == 0 -> r_cap_ex (spec_years tax d egr cgr n st0) == r_cap_ex st0).
Proof.
  induction n as [|n [IHe IHc]].
  - split; intros; simpl; [split|]; reflexivity.
  - split.
    + intros He. destruct (IHe He) as [H1 H2]. simpl. rewrite H1, H2, He.
      split; ring.
    + intros Hc. simpl. rewrite (IHc Hc), Hc. ring.
Qed.

(** X14.  When the base-year record carries a date whose first four
    characters [int] accepts and 1 + discount_rate is not zero, the loop
    over n years prints n rows and nothing else, reads nothing, and keeps n
    flows; the change in working capital it ends with is the base-year
    value times 0.7^n, whatever the rates; with an earnings growth rate of
    zero EBIT and the non-cash charges stay at their base-year values, and
    with a cap-ex growth rate of zero so does the capital expenditure. *)
Theorem forecast_loop_closed_forms
    (inc : statement) (inc0 : gmap string pyval) (date : pyval) (year : Z)
    (tax d egr cgr : Q) (b : base_year) (n : nat) (w : world) :
  inc !! 0%nat = Some inc0 ->
  inc0 !! "date"%string = Some date ->
  year_of int_of_str date = Ok year ->
  ~ 1 + d == 0 ->
  exists (rows : list (list piece)) (st : running),
    forecast_loop int_of_str inc tax d egr cgr (range 1 (Z.of_nat n + 1))
      (initial_state b) w
    = (World (stdout w ++ map Print rows) (stdin w), Ok st) /\
    length rows = n /\
    length (r_flows st) = n /\
    r_cwc st == b_cwc b * 0.7 ^ Z.of_nat n /\
    (egr == 0 ->
     r_ebit st == b_ebit b /\ r_non_cash_charges st == b_non_cash_charges b) /\
    (cgr == 0 -> r_cap_ex st == b_cap_ex b).
Proof.
  intros Hinc Hdate Hyear Hd.
  destruct (forecast_loop_rows inc inc0 date year tax d egr cgr
              (initial_state b) n Hinc Hdate Hyear Hd w) as (rows & Hrun & Hlen).
  exists rows, (spec_years tax d egr cgr n (initial_state b)).
  split; [assumption|]. split; [assumption|].
  split; [now rewrite spec_years_length|].
  split; [apply spec_years_cwc|]. apply spec_years_constant.
Qed.

(** X15.  The base-year inputs are read only from complete statements: when
    [base_year_inputs] returns, the income and cash-flow statements have a
    first record, the balance statement has two, each of the nine line
    items is present in its record and converted by [float] (EBIT apart,
    which may have been asked for), the earnings before tax are not zero,
    the tax rate is tax expense over earnings before tax, and the change in
    working capital is the difference of the two years' current assets
    (total minus non-current). *)
Theorem base_year_inputs_requirements
    (inc cf bal : statement) (b : base_year) (w w1 : world) :
  base_year_inputs float_of_str inc cf bal w = (w1, Ok b) ->
  exists (inc0 cf0 bal0 bal1 : gmap string pyval)
         (tax ebt da ta0 nca0 ta1 nca1 capex : pyval)
         (qtax qebt qta0 qnca0 qta1 qnca1 : Q),
    inc !! 0%nat = Some inc0 /\ cf !! 0%nat = Some cf0 /\
    bal !! 0%nat = Some bal0 /\ bal !! 1%nat = Some bal1 /\
    is_Some (inc0 !! "EBIT"%string) /\
    inc0 !! "Income Tax Expense"%string = Some tax /\
    inc0 !! "Earnings before Tax"%string = Some ebt /\
    cf0 !! "Depreciation & Amortization"%string = Some da /\
    bal0 !! "Total assets"%string = Some ta0 /\
    bal0 !! "Total non-current assets"%string = Some nca0 /\
    bal1 !! "Total assets"%string = Some ta1 /\
    bal1 !! "Total non-current assets"%string = Some nca1 /\
    cf0 !! "Capital Expenditure"%string = Some capex /\
    py_float float_of_str tax = Ok qtax /\
    py_float float_of_str ebt = Ok qebt /\ ~ qebt == 0 /\
    b_tax_rate b = qtax / qebt /\
    py_float float_of_str da = Ok (b_non_cash_charges b) /\
    py_float float_of_str ta0 = Ok qta0 /\
    py_float float_of_str nca0 = Ok qnca0 /\
    py_float float_of_str ta1 = Ok qta1 /\
    py_float float_of_str nca1 = Ok qnca1 /\
    b_cwc b = (qta0 - qnca0) - (qta1 - qnca1) /\
    py_float float_of_str capex = Ok (b_cap_ex b).
Proof.
  intros H. pose proof (base_year_ebit float_of_str inc cf bal b w w1 H) as Hebit.
  unfold base_year_inputs, bind, lift in H. rewrite Hebit in H.
  inversion H as [Hb]. clear H.
  unfold read_ebit, bind, lift, py_index, py_getitem in Hebit.
  unfold py_index, py_getitem in Hb.
  destruct (inc !! 0%nat) as [inc0|] eqn:Hinc; [|discriminate].
  cbn [res_bind] in Hb.
  destruct (inc0 !! "EBIT"%string) as [item|] eqn:Hitem; [|discriminate].
  destruct (inc0 !! "Income Tax Expense"%string) as [tax|] eqn:Htax;
    [|discriminate].
  cbn [res_bind] in Hb.
  destruct (py_float float_of_str tax) as [qtax|] eqn:Hqtax; [|discriminate].
  cbn [res_bind] in Hb.
  destruct (inc0 !! "Earnings before Tax"%string) as [ebt|] eqn:Hebt;
    [|discriminate].
  cbn [res_bind] in Hb.
  destruct (py_float float_of_str ebt) as [qebt|] eqn:Hqebt; [|discriminate].
  cbn [res_bind] in Hb.
  unfold py_div at 1 in Hb.
  destruct (Qeq_bool qebt 0) eqn:Hz; [discriminate|].
  apply Qeq_bool_false in Hz. cbn [res_bind] in Hb.
  destruct (cf !! 0%nat) as [cf0|] eqn:Hcf; [|discriminate].
  cbn [res_bind] in Hb.
  destruct (cf0 !! "Depreciation & Amortization"%string) as [da|] eqn:Hda;
    [|discriminate].
  cbn [res_bind] in Hb.
  destruct (py_float float_of_str da) as [qda|] eqn:Hqda; [|discriminate].
  cbn [res_bind] in Hb.
  destruct (bal !! 0%nat) as [bal0|] eqn:Hbal0; [|discriminate].
  cbn [res_bind] in Hb.
  destruct (bal0 !! "Total assets"%string) as [ta0|] eqn:Hta0; [|discriminate].
  cbn [res_bind] in Hb.
  destruct (py_float float_of_str ta0) as [qta0|] eqn:Hqta0; [|discriminate].
  cbn [res_bind] in Hb.
  destruct (bal0 !! "Total non-current assets"%string) as [nca0|] eqn:Hnca0;
    [|discriminate].
  cbn [res_bind] in Hb.
  destruct (py_float float_of_str nca0) as [qnca0|] eqn:Hqnca0; [|discriminate].
  cbn [res_bind] in Hb.
  destruct (bal !! 1%nat) as [bal1|] eqn:Hbal1; [|discriminate].
  cbn [res_bind] in Hb.
  destruct (bal1 !! "Total assets"%string) as [ta1|] eqn:Hta1; [|discriminate].
  cbn [res_bind] in Hb.
  destruct (py_float float_of_str ta1) as [qta1|] eqn:Hqta1; [|discriminate].
  cbn [res_bind] in Hb.
  destruct (bal1 !! "Total non-current assets"%string) as [nca1|] eqn:Hnca1;
    [|discriminate].
  cbn [res_bind] in Hb.
  destruct (py_float float_of_str nca1) as [qnca1|] eqn:Hqnca1; [|discriminate].
  cbn [res_bind] in Hb.
  destruct (cf0 !! "Capital Expenditure"%string) as [capex|] eqn:Hcapex;
    [|discriminate].
  cbn [res_bind] in Hb.
  destruct (py_float float_of_str capex) as [qcapex|] eqn:Hqcapex;
    [|discriminate].
  cbn [res_bind] in Hb. inversion Hb; subst; clear Hb. simpl.
  exists inc0, cf0, bal0, bal1, tax, ebt, da, ta0, nca0, ta1, nca1, capex,
    qtax, qebt, qta0, qnca0, qta1, qnca1.
  repeat (split; [first [assumption | reflexivity | eauto]|]).
  assumption.
Qed.

End Dcf_m1Edges.

(** ** The further properties on the objects and records above *)

Section GdcfFurtherExamples.
Import Gdcf.
Local Open Scope Q_scope.

Lemma setters_commute_witness :
  chain [(SetWacc, PFloat 0.09); (SetTotalDebt, PInt 20)] __init__
  = Ok (mkDCF 0.0 [] 0.02 0.09 0.0 (inject_Z 20) 1.0) <->
  chain [(SetTotalDebt, PInt 20); (SetWacc, PFloat 0.09)] __init__
  = Ok (mkDCF 0.0 [] 0.02 0.09 0.0 (inject_Z 20) 1.0).
Proof.
  apply (setters_commute SetWacc SetTotalDebt (PFloat 0.09) (PInt 20)).
  discriminate.
Defined.

Lemma last_setting_wins_witness :
  call_setter SetWacc (PFloat 0.5) (mkDCF 0.0 [] 0.02 0.09 0.0 0.0 1.0)
  = call_setter SetWacc (PFloat 0.5) __init__.
Proof.
  apply (last_setting_wins SetWacc (PFloat 0.09) (PFloat 0.5) __init__).
  reflexivity.
Defined.

Lemma calc_zero_fcf_witness :
  exists v : valuation,
    calc zero_fcf_state (World [] [])
    = (emit (Print [Lit msg_warning]) (World [] []), Ok (ReturnDict v)) /\
    Forall (fun f => f == 0) (projected_fcfs v) /\
    present_value_of_fcfs v == 0 /\
    terminal_value v == 0 /\
    enterprise_value v == 0 /\
    equity_value v == 50 - 20 /\
    intrinsic_value_per_share v == (50 - 20) / 100.
Proof.
  apply (calc_zero_fcf zero_fcf_state (World [] []));
    [reflexivity | reflexivity | discriminate | reflexivity | reflexivity].
Defined.

Lemma calc_positive_witness :
  exists v : valuation,
    calc scenario_A_state (World [] []) = (World [] [], Ok (ReturnDict v)) /\
    Forall (fun f => 0 < f) (projected_fcfs v) /\
    0 <= present_value_of_fcfs v /\
    0 < terminal_value v /\
    0 < enterprise_value v /\
    (20 <= 50 -> 0 < intrinsic_value_per_share v).
Proof.
  apply (calc_positive scenario_A_state (World [] []));
    [reflexivity | repeat constructor | discriminate | reflexivity
    | reflexivity | reflexivity | reflexivity].
Defined.

End GdcfFurtherExamples.

Section Dcf_m1FurtherExamples.
Import Dcf_m1.
Local Open Scope Q_scope.

Lemma base_undated_read :
  base_year_inputs float_of_digits [income_undated] [cashflow_2020]
    [balance_2020; balance_2019] (World [] [])
  = (World [] [], Ok base_2020).
Proof. vm_compute. reflexivity. Qed.

Lemma nonpositive_period_fails_witness :
  _enterprise_value_calculation float_of_digits int_of_digits [income_2020]
    [cashflow_2020] [balance_2020; balance_2019] 0 0.1 0.05 0.045 0.02
    (World [] [])
  = (emit (Print (heading 0 (PStr "2020-12-31"))) (World [] []),
     Raise IndexError).
Proof.
  apply (nonpositive_period_fails float_of_digits int_of_digits [income_2020]
           [cashflow_2020] [balance_2020; balance_2019] income_2020
           (PStr "2020-12-31") 0 0.1 0.05 0.045 0.02 base_2020);
    [exact base_2020_read | reflexivity | reflexivity | lia].
Defined.

Lemma first_year_failures_witness :
  _enterprise_value_calculation float_of_digits int_of_digits [income_2020]
    [cashflow_2020] [balance_2020; balance_2019] 5 (-1) 0.05 0.045 0.02
    (World [] [])
  = (emit (Print (heading 5 (PStr "2020-12-31"))) (World [] []),
     Raise ZeroDivisionError) /\
  _enterprise_value_calculation float_of_digits int_of_digits [income_undated]
    [cashflow_2020] [balance_2020; balance_2019] 5 0.1 0.05 0.045 0.02
    (World [] [])
  = (emit (Print (heading 5 (PStr "n/a"))) (World [] []),
     Raise (ValueError "int")).
Proof.
  split.
  - destruct (first_year_failures float_of_digits int_of_digits [income_2020]
                [cashflow_2020] [balance_2020; balance_2019] income_2020
                (PStr "2020-12-31") 5 (-1) 0.05 0.045 0.02 base_2020
                (World [] []) (World [] []) base_2020_read eq_refl eq_refl)
      as [Hzero _]; [lia|].
    apply Hzero. reflexivity.
  - destruct (first_year_failures float_of_digits int_of_digits
                [income_undated] [cashflow_2020] [balance_2020; balance_2019]
                income_undated (PStr "n/a") 5 0.1 0.05 0.045 0.02 base_2020
                (World [] []) (World [] []) base_undated_read eq_refl eq_refl)
      as [_ Hyear]; [lia|].
    apply Hyear; [discriminate | reflexivity].
Defined.

Lemma equity_value_cases_witness :
  _equity_value_calculation float_of_digits 1000 ev_2020
  = Ok (1000 - 30 + -10, (1000 - 30 + -10) / 10) /\
  _equity_value_calculation float_of_digits 1000 ev_no_shares
  = Raise ZeroDivisionError /\
  _equity_value_calculation float_of_digits 1000 ev_text_debt
  = Raise TypeError /\
  _equity_value_calculation float_of_digits 1000 (∅ : gmap string pyval)
  = Raise (KeyError "+ Total Debt").
Proof.
  split.
  { destruct (equity_value_cases float_of_digits 1000 ev_2020) as (H & _).
    apply (H (PFloat 30) (PFloat (-10)) (PFloat 10) 30 (-10) 10);
      try reflexivity. discriminate. }
  split.
  { destruct (equity_value_cases float_of_digits 1000 ev_no_shares) as (H & _).
    apply (H (PFloat 30) (PFloat (-10)) (PFloat 0) 30 (-10) 0);
      reflexivity. }
  split.
  { destruct (equity_value_cases float_of_digits 1000 ev_text_debt)
      as (_ & H & _).
    apply (H (PStr "30")); reflexivity. }
  destruct (equity_value_cases float_of_digits 1000 ∅) as (_ & _ & _ & H).
  apply H. reflexivity.
Defined.

Lemma calculate_dcf_result_witness :
  exists (self' : DCF) (r : dcf_result),
    _equity_value_calculation float_of_digits (res_enterprise_value r) ev_2020
    = Ok (res_equity_value r, res_share_price r) /\
    _enterprise_value self' = Some (res_enterprise_value r) /\
    forall w2,
      calculate_dcf float_of_digits int_of_digits self' w2
      = calculate_dcf float_of_digits int_of_digits (dcf_2020 0.1) w2.
Proof.
  destruct (calculate_dcf float_of_digits int_of_digits (dcf_2020 0.1)
              (World [] [])) as [w' [[self' r]|e]] eqn:Hrun.
  - exists self', r.
    destruct (calculate_dcf_result float_of_digits int_of_digits
                (dcf_2020 0.1) self' r (World [] []) w' Hrun)
      as (_ & Heq & _ & Hself & Hagain).
    split; [exact Heq|]. split; [now rewrite Hself|exact Hagain].
  - vm_compute in Hrun. discriminate.
Defined.

Lemma forecast_loop_closed_forms_witness :
  exists (rows : list (list piece)) (st : running),
    forecast_loop int_of_digits [income_2020] 0.2 0.1 0 0
      (range 1 (Z.of_nat 3 + 1)) (initial_state base_2020) (World [] [])
    = (World ([] ++ map Print rows) [], Ok st) /\
    length rows = 3%nat /\
    length (r_flows st) = 3%nat /\
    r_cwc st == b_cwc base_2020 * 0.7 ^ Z.of_nat 3 /\
    (0 == 0 ->
     r_ebit st == b_ebit base_2020 /\
     r_non_cash_charges st == b_non_cash_charges base_2020) /\
    (0 == 0 -> r_cap_ex st == b_cap_ex base_2020).
Proof.
  apply (forecast_loop_closed_forms int_of_digits [income_2020] income_2020
           (PStr "2020-12-31") 2020 0.2 0.1 0 0 base_2020 3 (World [] []));
    [reflexivity | reflexivity | reflexivity | discriminate].
Defined.

Lemma base_year_inputs_requirements_witness :
  exists bal1 qtax qebt : _,
    [balance_2020; balance_2019] !! 1%nat = Some bal1 /\
    ~ qebt == 0 /\ b_tax_rate base_2020 = qtax / qebt.
Proof.
  destruct (base_year_inputs_requirements float_of_digits [income_2020]
              [cashflow_2020] [balance_2020; balance_2019] base_2020
              (World [] []) (World [] []) base_2020_read)
    as (inc0 & cf0 & bal0 & bal1 & tax & ebt & da & ta0 & nca0 & ta1 & nca1
        & capex & qtax & qebt & qta0 & qnca0 & qta1 & qnca1 & H).
  exists bal1, qtax, qebt. tauto.
Defined.

End Dcf_m1FurtherExamples.
